(** * Reaction-points bot: ledger, campaign registry, reaction handlers, sweeper

    Shallow embedding of [src/main.py].

    - A Python [str] is a [string] holding its UTF-8 bytes; [split] on the
      ASCII separators [","] and [":"] is then the same on bytes as on code
      points, [strip] removes the UTF-8 encodings of the characters for
      which [str.isspace] holds, and [int] reads the decimal digits and the
      white space of every script.
    - A Python [int] is a [Z] (unbounded).
    - A CSV file is absent ([None]) or holds its data rows under the header
      written by [ensure_csv_files]; a row is the record of its column
      strings, exactly as [csv.DictReader] hands them out.
    - The code runs in a state-and-exception monad [M]: the state holds the
      three files and the trace of the effects performed so far (file opens,
      chat messages, reactions, deletions, replies, console output). *)

From Stdlib Require Import ZArith List String Ascii Bool Lia.
Import ListNotations.
Local Open Scope string_scope.
Local Open Scope Z_scope.

(** ** Python strings *)

Module PyStr.

(** [s.split(sep)] for a one-character separator. *)
Fixpoint split (sep : ascii) (s : string) : list string :=
  match s with
  | EmptyString => [EmptyString]
  | String c r =>
      if Ascii.eqb c sep then EmptyString :: split sep r
      else match split sep r with
           | h :: t => String c h :: t
           | [] => [String c EmptyString]
           end
  end.

Definition code (a : ascii) : N := N_of_ascii a.

(** One-byte white space: TAB..CR, FS..US and the space. *)
Definition ws1 (a : ascii) : bool :=
  ((9 <=? code a) && (code a <=? 13) || (28 <=? code a) && (code a <=? 32))%N.

(** Two-byte white space: U+0085 and U+00A0. *)
Definition ws2 (a b : ascii) : bool :=
  ((code a =? 194) && ((code b =? 133) || (code b =? 160)))%N.

(** Three-byte white space: U+1680, U+2000..U+200A, U+2028, U+2029, U+202F,
    U+205F and U+3000. *)
Definition ws3 (a b c : ascii) : bool :=
  ((code a =? 225) && (code b =? 154) && (code c =? 128)
   || (code a =? 226) && (code b =? 128)
      && ((128 <=? code c) && (code c <=? 138)
          || (code c =? 168) || (code c =? 169) || (code c =? 175))
   || (code a =? 226) && (code b =? 129) && (code c =? 159)
   || (code a =? 227) && (code b =? 128) && (code c =? 128))%N.

(** Drops the white space at the front of [s]; with [back] set, [s] is a
    reversed string and the bytes of a character come last byte first. *)
Fixpoint drop_ws (back : bool) (s : string) : string :=
  match s with
  | EmptyString => EmptyString
  | String a r =>
      if ws1 a then drop_ws back r
      else match r with
           | EmptyString => s
           | String b r2 =>
               if (if back then ws2 b a else ws2 a b) then drop_ws back r2
               else match r2 with
                    | EmptyString => s
                    | String c r3 =>
                        if (if back then ws3 c b a else ws3 a b c)
                        then drop_ws back r3
                        else s
                    end
           end
  end.

Fixpoint rev_onto (s acc : string) : string :=
  match s with
  | EmptyString => acc
  | String c r => rev_onto r (String c acc)
  end.

Definition rev (s : string) : string := rev_onto s EmptyString.

Definition lstrip (s : string) : string := drop_ws false s.
Definition rstrip (s : string) : string := rev (drop_ws true (rev s)).

(** [s.strip()] *)
Definition strip (s : string) : string := rstrip (lstrip s).

Definition is_digit (a : ascii) : bool := ((48 <=? code a) && (code a <=? 57))%N.
Definition digit_value (a : ascii) : Z := Z.of_N (code a) - 48.
Definition digit_char (d : Z) : ascii := ascii_of_N (Z.to_N (48 + d)).

(** The digits of a base-10 literal: at least one digit, and single
    underscores only between two digits. *)
Fixpoint digits_acc (after_digit : bool) (acc : Z) (s : string) : option Z :=
  match s with
  | EmptyString => if after_digit then Some acc else None
  | String c r =>
      if is_digit c then digits_acc true (10 * acc + digit_value c) r
      else if Ascii.eqb c "_" then
             if after_digit then digits_acc false acc r else None
           else None
  end.

Definition byte (a : ascii) : Z := Z.of_N (code a).

(** A continuation byte of UTF-8. *)
Definition continuation (a : ascii) : bool := (128 <=? byte a) && (byte a <? 192).

(** The white space beyond ASCII, by code point ([str.isspace]). *)
Definition is_space (cp : Z) : bool :=
  (cp =? 133) || (cp =? 160) || (cp =? 5760)
  || (8192 <=? cp) && (cp <=? 8202)
  || (cp =? 8232) || (cp =? 8233) || (cp =? 8239) || (cp =? 8287)
  || (cp =? 12288).

(** The decimal digits beyond ASCII: the code point of the zero of every
    script that has decimal digits, the other nine digits following their
    zero (Unicode 14.0, the character database of CPython 3.11). *)
Definition decimal_zeros : list Z :=
  [1632; 1776; 1984; 2406; 2534; 2662; 2790; 2918; 3046; 3174; 3302; 3430;
   3558; 3664; 3792; 3872; 4160; 4240; 6112; 6160; 6470; 6608; 6784; 6800;
   6992; 7088; 7232; 7248; 42528; 43216; 43264; 43472; 43504; 43600; 44016;
   65296; 66720; 68912; 69734; 69872; 69942; 70096; 70384; 70736; 70864;
   71248; 71360; 71472; 71904; 72016; 72784; 73040; 73120; 92768; 92864;
   93008; 120782; 120792; 120802; 120812; 120822; 123200; 123632; 125264;
   130032].

(** The value of a decimal digit beyond ASCII. *)
Definition decimal (cp : Z) : option Z :=
  match find (fun zero => (zero <=? cp) && (cp <? zero + 10)) decimal_zeros with
  | Some zero => Some (cp - zero)
  | None => None
  end.

(** What [int] reads for a character beyond ASCII: a space for white space,
    the ASCII digit for a decimal digit, and ["?"], which no literal
    contains, for every other character. *)
Definition ascii_of_char (cp : Z) : ascii :=
  if is_space cp then " "
  else match decimal cp with
       | Some d => digit_char d
       | None => "?"
       end.

(** The first step of [int(s)]: the characters of ASCII stay, the others
    are replaced as [ascii_of_char] says.  Bytes that are no UTF-8 (a stray
    or missing continuation byte, an encoding longer than needed) stand for
    no character and end the result with ["?"]. *)
Fixpoint to_ascii (s : string) : string :=
  match s with
  | EmptyString => EmptyString
  | String a r =>
      if byte a <? 128 then String a (to_ascii r)
      else
        match r with
        | EmptyString => "?"
        | String b r2 =>
            if byte a <? 224 then
              let cp := (byte a - 192) * 64 + (byte b - 128) in
              if continuation b && (128 <=? cp)
              then String (ascii_of_char cp) (to_ascii r2)
              else "?"
            else
              match r2 with
              | EmptyString => "?"
              | String c r3 =>
                  if byte a <? 240 then
                    let cp := (byte a - 224) * 4096 + (byte b - 128) * 64
                              + (byte c - 128) in
                    if continuation b && continuation c && (2048 <=? cp)
                    then String (ascii_of_char cp) (to_ascii r3)
                    else "?"
                  else
                    match r3 with
                    | EmptyString => "?"
                    | String d r4 =>
                        let cp := (byte a - 240) * 262144
                                  + (byte b - 128) * 4096
                                  + (byte c - 128) * 64 + (byte d - 128) in
                        if continuation b && continuation c && continuation d
                           && (65536 <=? cp) && (cp <=? 1114111)
                        then String (ascii_of_char cp) (to_ascii r4)
                        else "?"
                    end
              end
        end
  end.

(** The white space of an integer literal once it is ASCII: TAB..CR and the
    space.  FS..US, which [strip] removes, are no white space here. *)
Definition int_ws (a : ascii) : bool :=
  ((9 <=? code a) && (code a <=? 13) || (code a =? 32))%N.

Fixpoint skip_ws (s : string) : string :=
  match s with
  | EmptyString => EmptyString
  | String a r => if int_ws a then skip_ws r else s
  end.

(** [int(s)]: the characters beyond ASCII are replaced, then white space
    around, an optional sign and the digits; [None] stands for
    [ValueError].  The interpreter's bound on the length of a literal (4300
    digits unless configured otherwise) is not part of the model. *)
Definition py_int (s : string) : option Z :=
  match rev (skip_ws (rev (skip_ws (to_ascii s)))) with
  | EmptyString => None
  | String c r =>
      if Ascii.eqb c "+" then digits_acc false 0 r
      else if Ascii.eqb c "-" then option_map Z.opp (digits_acc false 0 r)
      else digits_acc false 0 (String c r)
  end.

Fixpoint digits_of (fuel : nat) (n : Z) (rest : string) : string :=
  match fuel with
  | O => rest
  | S f =>
      if n <? 10 then String (digit_char n) rest
      else digits_of f (n / 10) (String (digit_char (n mod 10)) rest)
  end.

(** [str(n)] for an [int]. *)
Definition py_str (n : Z) : string :=
  if n <? 0
  then String "-" (digits_of (S (Z.to_nat (Z.log2 (- n)))) (- n) EmptyString)
  else digits_of (S (Z.to_nat (Z.log2 n))) n EmptyString.

End PyStr.
Import PyStr.

(** A [dict] with [str] keys keeps its keys in insertion order; setting an
    existing key replaces the value in place. *)
Definition dict (V : Type) : Type := list (string * V).

Fixpoint dict_set {V : Type} (k : string) (v : V) (d : dict V) : dict V :=
  match d with
  | [] => [(k, v)]
  | (k', v') :: r =>
      if String.eqb k' k then (k', v) :: r else (k', v') :: dict_set k v r
  end.

Fixpoint dict_get {V : Type} (k : string) (d : dict V) : option V :=
  match d with
  | [] => None
  | (k', v') :: r => if String.eqb k' k then Some v' else dict_get k r
  end.

Definition dict_keys {V : Type} (d : dict V) : list string := map fst d.

(** ** Stored data *)

(** A row of [data/points.csv]. *)
Module Ledger.
Record row : Type := mk { user_id : string; points : string }.
End Ledger.

(** A row of [data/settings.csv]. *)
Module Setting.
Record row : Type := mk { key : string; value : string }.
End Setting.

(** A row of [data/wpt_messages.csv]. *)
Module Campaign.
Record row : Type :=
  mk { message_id : string; channel_id : string;
       expiration : string; emoji_points : string }.
End Campaign.

(** [data/wpt_messages.csv] is the one file the code also opens in append
    mode: appending to an absent file creates it without the header line, and
    [csv.DictReader] then takes the first record for the header. *)
Inductive wpt_file : Type :=
| Absent
| Table (rows : list Campaign.row)
| Headless (first : Campaign.row) (rest : list Campaign.row).

Record Files : Type :=
  mkFiles { points_csv : option (list Ledger.row);
            settings_csv : option (list Setting.row);
            wpt_messages_csv : wpt_file }.

(** ** Effects *)

Inductive file : Type := POINTS_FILE | SETTINGS_FILE | WPT_MESSAGES_FILE.

Inductive exn : Type :=
| FileNotFoundError | ValueError | TypeError | KeyError | AttributeError
| OverflowError | RecursionError | HTTPException.

Inductive EmbedField : Type :=
| Expires (epoch_seconds : Z)
| PointValue (emoji : string) (points : Z).

Record Embed : Type :=
  mkEmbed { embed_title : string; embed_description : string;
            embed_fields : list EmbedField }.

Inductive Reply : Type :=
| WptCreated (channel : Z)
| ErrorCreatingWpt (e : exn).

Inductive Printed : Type :=
| ErrorProcessingReaction (e : exn)
| ErrorProcessingRemoval (e : exn)
| ErrorCheckingExpirations (e : exn).

(** What the process does to the outside, in order. *)
Inductive Effect : Type :=
| Open (f : file) (mode : string)
| ChannelSend (channel : Z) (embed : Embed)
| AddReaction (message : Z) (emoji : string)
| FetchChannel (channel : Z)
| FetchMessage (channel message : Z)
| MessageDelete (channel message : Z)
| SendResponse (r : Reply)
| Print (p : Printed).

Record State : Type := mkState { files : Files; trace : list Effect }.

Inductive outcome (A : Type) : Type :=
| Ret (a : A)
| Raise (e : exn).
Arguments Ret {A} a.
Arguments Raise {A} e.

Definition M (A : Type) : Type := State -> outcome A * State.

Definition ret {A : Type} (a : A) : M A := fun s => (Ret a, s).

Definition raise {A : Type} (e : exn) : M A := fun s => (Raise e, s).

Definition lift {A : Type} (o : outcome A) : M A := fun s => (o, s).

Definition bind {A B : Type} (m : M A) (k : A -> M B) : M B :=
  fun s =>
    match m s with
    | (Ret a, s') => k a s'
    | (Raise e, s') => (Raise e, s')
    end.

(** [try: m except ...: h e]; [h e = None] when no clause matches [e]. *)
Definition try_except {A : Type} (m : M A) (h : exn -> option (M A)) : M A :=
  fun s =>
    match m s with
    | (Ret a, s') => (Ret a, s')
    | (Raise e, s') =>
        match h e with
        | Some k => k s'
        | None => (Raise e, s')
        end
    end.

Notation "x <- m ;; k" := (bind m (fun x => k))
  (at level 61, m at next level, right associativity).
Notation "m ;; k" := (bind m (fun _ => k))
  (at level 61, right associativity).

Definition emit (e : Effect) : M unit :=
  fun s => (Ret tt, mkState (files s) (trace s ++ [e])).

Definition get_files : M Files := fun s => (Ret (files s), s).

Definition put_files (f : Files) : M unit :=
  fun s => (Ret tt, mkState f (trace s)).

Definition except_FileNotFoundError {A : Type} (k : M A) (e : exn)
  : option (M A) :=
  match e with
  | FileNotFoundError => Some k
  | _ => None
  end.

Definition except_Exception {A : Type} (k : exn -> M A) (e : exn)
  : option (M A) := Some (k e).

(** ** The three CSV files *)

(** [open(POINTS_FILE, 'r')] and [csv.DictReader]. *)
Definition read_points : M (list Ledger.row) :=
  emit (Open POINTS_FILE "r") ;;
  fs <- get_files ;;
  match points_csv fs with
  | Some rows => ret rows
  | None => raise FileNotFoundError
  end.

(** [open(POINTS_FILE, 'w')], the header, then the rows. *)
Definition write_points (rows : list Ledger.row) : M unit :=
  emit (Open POINTS_FILE "w") ;;
  fs <- get_files ;;
  put_files (mkFiles (Some rows) (settings_csv fs) (wpt_messages_csv fs)).

Definition read_settings : M (list Setting.row) :=
  emit (Open SETTINGS_FILE "r") ;;
  fs <- get_files ;;
  match settings_csv fs with
  | Some rows => ret rows
  | None => raise FileNotFoundError
  end.

Definition write_settings (rows : list Setting.row) : M unit :=
  emit (Open SETTINGS_FILE "w") ;;
  fs <- get_files ;;
  put_files (mkFiles (points_csv fs) (Some rows) (wpt_messages_csv fs)).

(** The rows [csv.DictReader] yields for [WPT_MESSAGES_FILE]; [None] is a
    row keyed by something else than the column names (the file has no
    header line), on which every [row['...']] raises [KeyError]. *)
Definition read_wpt : M (list (option Campaign.row)) :=
  emit (Open WPT_MESSAGES_FILE "r") ;;
  fs <- get_files ;;
  match wpt_messages_csv fs with
  | Absent => raise FileNotFoundError
  | Table rows => ret (map Some rows)
  | Headless _ rest => ret (map (fun _ => None) rest)
  end.

Definition write_wpt (rows : list Campaign.row) : M unit :=
  emit (Open WPT_MESSAGES_FILE "w") ;;
  fs <- get_files ;;
  put_files (mkFiles (points_csv fs) (settings_csv fs) (Table rows)).

(** [open(WPT_MESSAGES_FILE, 'a')] and one [writerow]. *)
Definition append_wpt (row : Campaign.row) : M unit :=
  emit (Open WPT_MESSAGES_FILE "a") ;;
  fs <- get_files ;;
  put_files
    (mkFiles (points_csv fs) (settings_csv fs)
       match wpt_messages_csv fs with
       | Absent => Headless row []
       | Table rows => Table (rows ++ [row])
       | Headless first rest => Headless first (rest ++ [row])
       end).

Definition ensure_csv_files : M unit :=
  fs <- get_files ;;
  match points_csv fs with None => write_points [] | Some _ => ret tt end ;;
  fs <- get_files ;;
  match settings_csv fs with None => write_settings [] | Some _ => ret tt end ;;
  fs <- get_files ;;
  match wpt_messages_csv fs with Absent => write_wpt [] | _ => ret tt end.

(** ** Settings *)

(** The loop of [get_setting]: the value of the first row with the key. *)
Fixpoint find_setting (key : string) (rows : list Setting.row)
  : option string :=
  match rows with
  | [] => None
  | row :: rest =>
      if String.eqb (Setting.key row) key then Some (Setting.value row)
      else find_setting key rest
  end.

Definition get_setting (key : string) : M (option string) :=
  try_except
    (rows <- read_settings ;;
     ret (find_setting key rows))
    (except_FileNotFoundError (ensure_csv_files ;; ret None)).

(** ** Points ledger *)

(** The loop of [get_user_points]; [Ret None] when it runs to its end. *)
Fixpoint find_points (user_id : Z) (rows : list Ledger.row)
  : outcome (option Z) :=
  match rows with
  | [] => Ret None
  | row :: rest =>
      match py_int (Ledger.user_id row) with
      | None => Raise ValueError
      | Some u =>
          if u =? user_id then
            match py_int (Ledger.points row) with
            | None => Raise ValueError
            | Some n => Ret (Some n)
            end
          else find_points user_id rest
      end
  end.

Definition get_user_points (user_id : Z) : M Z :=
  try_except
    (rows <- read_points ;;
     found <- lift (find_points user_id rows) ;;
     match found with
     | Some n => ret n
     | None => ret 0
     end)
    (except_FileNotFoundError (ensure_csv_files ;; ret 0)).

(** The loop of [update_user_points]: the rows after it and [updated]. *)
Fixpoint set_points (user_id : Z) (points : string) (rows : list Ledger.row)
  : outcome (list Ledger.row * bool) :=
  match rows with
  | [] => Ret ([], false)
  | row :: rest =>
      match py_int (Ledger.user_id row) with
      | None => Raise ValueError
      | Some u =>
          if u =? user_id then
            Ret (Ledger.mk (Ledger.user_id row) points :: rest, true)
          else
            match set_points user_id points rest with
            | Ret (rest', updated) => Ret (row :: rest', updated)
            | Raise e => Raise e
            end
      end
  end.

(** The interpreter's bound on nested calls. *)
Definition recursion_limit : nat := 1000.

Fixpoint update_user_points_rec (depth : nat) (user_id points : Z) : M unit :=
  try_except
    (rows <- read_points ;;
     upd <- lift (set_points user_id (py_str points) rows) ;;
     write_points
       (if snd upd then fst upd
        else fst upd ++ [Ledger.mk (py_str user_id) (py_str points)]))
    (except_FileNotFoundError
       (ensure_csv_files ;;
        match depth with
        | O => raise RecursionError
        | S d => update_user_points_rec d user_id points
        end)).

Definition update_user_points (user_id points : Z) : M unit :=
  update_user_points_rec recursion_limit user_id points.

(** The loop of [set_setting]. *)
Fixpoint set_value (key value : string) (rows : list Setting.row)
  : list Setting.row * bool :=
  match rows with
  | [] => ([], false)
  | row :: rest =>
      if String.eqb (Setting.key row) key
      then (Setting.mk (Setting.key row) value :: rest, true)
      else let upd := set_value key value rest in (row :: fst upd, snd upd)
  end.

Fixpoint set_setting_rec (depth : nat) (key value : string) : M unit :=
  try_except
    (rows <- read_settings ;;
     let upd := set_value key value rows in
     write_settings
       (if snd upd then fst upd else fst upd ++ [Setting.mk key value]))
    (except_FileNotFoundError
       (ensure_csv_files ;;
        match depth with
        | O => raise RecursionError
        | S d => set_setting_rec d key value
        end)).

Definition set_setting (key value : string) : M unit :=
  set_setting_rec recursion_limit key value.

(** ** Role check *)

(** The invoker of a command; [roles] is [None] for a user object without
    the attribute (a user outside a guild). *)
Record Interaction : Type := mkInteraction { roles : option (list Z) }.

(** The predicate inside [has_required_role]. *)
Definition predicate (interaction : Interaction) : M bool :=
  required_role_id <- get_setting "required_role" ;;
  match required_role_id with
  | None => ret true
  | Some "" => ret true
  | Some text =>
      try_except
        (match py_int text with
         | None => raise ValueError
         | Some required_role_id =>
             match roles interaction with
             | None => raise AttributeError
             | Some user_roles =>
                 ret (existsb (fun role => role =? required_role_id) user_roles)
             end
         end)
        (fun e =>
           match e with
           | ValueError | AttributeError => Some (ret false)
           | _ => None
           end)
  end.

(** A command under [@has_required_role()]: the body runs when the check
    holds; [None] when the check fails and the body is not run. *)
Definition has_required_role {A : Type} (interaction : Interaction)
    (command : M A) : M (option A) :=
  ok <- predicate interaction ;;
  if ok then (a <- command ;; ret (Some a)) else ret None.

(** ** Campaigns *)

(** The parsing loop of [createwpt]. *)
Fixpoint parse_emoji_points (pairs : list string) (emoji_dict : dict Z)
  : outcome (dict Z) :=
  match pairs with
  | [] => Ret emoji_dict
  | entry :: rest =>
      match split ":" entry with
      | [emoji; points] =>
          match py_int points with
          | Some n => parse_emoji_points rest (dict_set (strip emoji) n emoji_dict)
          | None => Raise ValueError
          end
      | _ => Raise ValueError
      end
  end.

(** [dict(pair.split(':') for pair in ...)] of the reaction handlers: every
    element has to be of length two. *)
Fixpoint dict_of_pairs (pairs : list (list string)) (d : dict string)
  : outcome (dict string) :=
  match pairs with
  | [] => Ret d
  | [k; v] :: rest => dict_of_pairs rest (dict_set k v d)
  | _ :: _ => Raise ValueError
  end.

(** The lookup loop of the reaction handlers. *)
Fixpoint find_message (message_id : Z) (rows : list (option Campaign.row))
  : outcome (option Campaign.row) :=
  match rows with
  | [] => Ret None
  | None :: _ => Raise KeyError
  | Some row :: rest =>
      match py_int (Campaign.message_id row) with
      | None => Raise ValueError
      | Some m =>
          if m =? message_id then Ret (Some row)
          else find_message message_id rest
      end
  end.

(** A [datetime] is the number of microseconds since 0001-01-01T00:00:00 on
    its own (naive) time line. *)
Definition microseconds_per_day : Z := 86400000000.
Definition datetime_max : Z := 3652059 * microseconds_per_day - 1.

(** [datetime.timedelta(hours=h)] *)
Definition timedelta_hours (h : Z) : outcome Z :=
  let d := h * 3600000000 in
  if (- 999999999 * microseconds_per_day <=? d)
     && (d <? 1000000000 * microseconds_per_day)
  then Ret d else Raise OverflowError.

(** [t + d] for a [datetime] and a [timedelta]. *)
Definition datetime_add (t d : Z) : outcome Z :=
  if (0 <=? t + d) && (t + d <=? datetime_max) then Ret (t + d)
  else Raise OverflowError.

(** What [datetime.datetime.fromisoformat] makes of a string. *)
Inductive parsed_datetime : Type :=
| Naive (t : Z)
| Aware
| Invalid.

(** A reaction event: [reaction.message.id], [str(reaction.emoji)],
    [user.id] and [user.bot]. *)
Module Reaction.
Record event : Type :=
  mk { message_id : Z; emoji : string; user_id : Z; user_bot : bool }.
End Reaction.

(** The chat platform, as far as the calls made on it go: whether each call
    returns or raises. *)
Record Platform : Type :=
  mkPlatform { send_result : Z -> Embed -> option Z;
               add_reaction_ok : Z -> string -> bool;
               fetch_channel_ok : Z -> bool;
               fetch_message_ok : Z -> Z -> bool;
               delete_ok : Z -> Z -> bool }.

Section Bot.

(** The [datetime] library functions and the chat platform are taken as
    given.  [timestamp t] is [int(t.timestamp())], which goes through the
    local time zone and raises for the times it cannot convert, those of
    the first day of year 1 among them. *)
Variable fromisoformat : string -> parsed_datetime.
Variable isoformat : Z -> string.
Variable timestamp : Z -> outcome Z.
Variable chat : Platform.

Definition channel_send (channel : Z) (embed : Embed) : M Z :=
  emit (ChannelSend channel embed) ;;
  match send_result chat channel embed with
  | Some sent_message => ret sent_message
  | None => raise HTTPException
  end.

Definition add_reaction (message : Z) (emoji : string) : M unit :=
  emit (AddReaction message emoji) ;;
  if add_reaction_ok chat message emoji then ret tt else raise HTTPException.

Fixpoint add_reactions (message : Z) (emojis : list string) : M unit :=
  match emojis with
  | [] => ret tt
  | emoji :: rest => add_reaction message emoji ;; add_reactions message rest
  end.

Definition createwpt (now : Z) (channel : Z) (title message : string)
    (emoji_points : string) (expiration : Z) : M unit :=
  try_except
    (emoji_dict <- lift (parse_emoji_points (split "," emoji_points) []) ;;
     delta <- lift (timedelta_hours expiration) ;;
     expiration_time <- lift (datetime_add now delta) ;;
     stamp <- lift (timestamp expiration_time) ;;
     let embed :=
       mkEmbed title message
         (Expires stamp
          :: map (fun kv => PointValue (fst kv) (snd kv)) emoji_dict) in
     sent_message <- channel_send channel embed ;;
     add_reactions sent_message (dict_keys emoji_dict) ;;
     append_wpt
       (Campaign.mk (py_str sent_message) (py_str channel)
          (isoformat expiration_time) emoji_points) ;;
     emit (SendResponse (WptCreated channel)))
    (except_Exception (fun e => emit (SendResponse (ErrorCreatingWpt e)))).

Definition on_reaction_add (reaction : Reaction.event) : M unit :=
  if Reaction.user_bot reaction then ret tt
  else
    try_except
      (rows <- read_wpt ;;
       message_data <- lift (find_message (Reaction.message_id reaction) rows) ;;
       match message_data with
       | None => ret tt
       | Some row =>
           emoji_points <-
             lift (dict_of_pairs
                     (map (split ":") (split "," (Campaign.emoji_points row)))
                     []) ;;
           match dict_get (Reaction.emoji reaction) emoji_points with
           | None => ret tt
           | Some text =>
               match py_int text with
               | None => raise ValueError
               | Some points_to_add =>
                   current_points <- get_user_points (Reaction.user_id reaction) ;;
                   update_user_points (Reaction.user_id reaction)
                     (current_points + points_to_add)
               end
           end
       end)
      (except_Exception (fun e => emit (Print (ErrorProcessingReaction e)))).

Definition on_reaction_remove (reaction : Reaction.event) : M unit :=
  if Reaction.user_bot reaction then ret tt
  else
    try_except
      (rows <- read_wpt ;;
       message_data <- lift (find_message (Reaction.message_id reaction) rows) ;;
       match message_data with
       | None => ret tt
       | Some row =>
           emoji_points <-
             lift (dict_of_pairs
                     (map (split ":") (split "," (Campaign.emoji_points row)))
                     []) ;;
           match dict_get (Reaction.emoji reaction) emoji_points with
           | None => ret tt
           | Some text =>
               match py_int text with
               | None => raise ValueError
               | Some points_to_remove =>
                   current_points <- get_user_points (Reaction.user_id reaction) ;;
                   update_user_points (Reaction.user_id reaction)
                     (current_points - points_to_remove)
               end
           end
       end)
      (except_Exception (fun e => emit (Print (ErrorProcessingRemoval e)))).

(** The first loop of [check_expirations]. *)
Fixpoint partition_rows (now : Z) (rows : list (option Campaign.row))
    (expired_messages : list (Z * Z)) (active_messages : list Campaign.row)
  : outcome (list (Z * Z) * list Campaign.row) :=
  match rows with
  | [] => Ret (expired_messages, active_messages)
  | None :: _ => Raise KeyError
  | Some row :: rest =>
      match fromisoformat (Campaign.expiration row) with
      | Invalid => Raise ValueError
      | Aware => Raise TypeError
      | Naive expiration =>
          if expiration <=? now then
            match py_int (Campaign.message_id row) with
            | None => Raise ValueError
            | Some message_id =>
                match py_int (Campaign.channel_id row) with
                | None => Raise ValueError
                | Some channel_id =>
                    partition_rows now rest
                      (expired_messages ++ [(message_id, channel_id)])
                      active_messages
                end
            end
          else partition_rows now rest expired_messages (active_messages ++ [row])
      end
  end.

(** [fetch_channel], [fetch_message] and [delete] of one expired message. *)
Definition delete_message (message_id channel_id : Z) : M unit :=
  emit (FetchChannel channel_id) ;;
  (if fetch_channel_ok chat channel_id then ret tt else raise HTTPException) ;;
  emit (FetchMessage channel_id message_id) ;;
  (if fetch_message_ok chat channel_id message_id then ret tt
   else raise HTTPException) ;;
  emit (MessageDelete channel_id message_id) ;;
  (if delete_ok chat channel_id message_id then ret tt else raise HTTPException).

(** The second loop of [check_expirations]: a failure is passed over. *)
Fixpoint delete_expired (expired_messages : list (Z * Z)) : M unit :=
  match expired_messages with
  | [] => ret tt
  | (message_id, channel_id) :: rest =>
      try_except (delete_message message_id channel_id)
        (except_Exception (fun _ => ret tt)) ;;
      delete_expired rest
  end.

Definition check_expirations (now : Z) : M unit :=
  try_except
    (rows <- read_wpt ;;
     parts <- lift (partition_rows now rows [] []) ;;
     delete_expired (fst parts) ;;
     write_wpt (snd parts))
    (except_Exception (fun e => emit (Print (ErrorCheckingExpirations e)))).

End Bot.

(** ** Views of the files

    What the ledger operations compute, as functions of the files alone;
    the lemmas below relate them to the monadic code. *)

(** The files once [ensure_csv_files] has run. *)
Definition ensured (fs : Files) : Files :=
  mkFiles
    (match points_csv fs with None => Some [] | Some rows => Some rows end)
    (match settings_csv fs with None => Some [] | Some rows => Some rows end)
    (match wpt_messages_csv fs with Absent => Table [] | w => w end).

(** The files once [get_user_points] has run. *)
Definition healed (fs : Files) : Files :=
  match points_csv fs with
  | None => ensured fs
  | Some _ => fs
  end.

(** What [get_user_points] returns. *)
Definition balance (user_id : Z) (fs : Files) : outcome Z :=
  match points_csv fs with
  | None => Ret 0
  | Some rows =>
      match find_points user_id rows with
      | Ret (Some n) => Ret n
      | Ret None => Ret 0
      | Raise e => Raise e
      end
  end.

(** The rows of the ledger, none when the file is absent. *)
Definition ledger_rows (fs : Files) : list Ledger.row :=
  match points_csv fs with
  | None => []
  | Some rows => rows
  end.

(** The rows [update_user_points] writes for the rows it has read. *)
Definition updated_rows (user_id points : Z) (rows : list Ledger.row)
  : outcome (list Ledger.row) :=
  match set_points user_id (py_str points) rows with
  | Ret (rows', true) => Ret rows'
  | Ret (rows', false) =>
      Ret (rows' ++ [Ledger.mk (py_str user_id) (py_str points)])%list
  | Raise e => Raise e
  end.

(** The files once [update_user_points] has run. *)
Definition updated (user_id points : Z) (fs : Files) : Files :=
  match updated_rows user_id points (ledger_rows fs) with
  | Ret rows =>
      mkFiles (Some rows) (settings_csv (healed fs)) (wpt_messages_csv (healed fs))
  | Raise _ => fs
  end.

(** The users that have an entry, in the order of the file; a row whose
    [user_id] is no integer is no user's entry. *)
Fixpoint user_ids (rows : list Ledger.row) : list Z :=
  match rows with
  | [] => []
  | row :: rest =>
      match py_int (Ledger.user_id row) with
      | Some u => u :: user_ids rest
      | None => user_ids rest
      end
  end.

Definition one_entry_per_user (fs : Files) : Prop :=
  NoDup (user_ids (ledger_rows fs)).

(** The rows that are not an entry of [user_id]. *)
Definition entries_of_others (user_id : Z) (rows : list Ledger.row)
  : list Ledger.row :=
  filter (fun row =>
            match py_int (Ledger.user_id row) with
            | Some u => negb (u =? user_id)
            | None => true
            end) rows.

Definition uid_ok (row : Ledger.row) : Prop :=
  py_int (Ledger.user_id row) <> None.

(** Every [user_id] of the ledger reads as an integer. *)
Definition ledger_ok (fs : Files) : Prop := Forall uid_ok (ledger_rows fs).

(** A sequence of [update_user_points(u, n)] calls. *)
Fixpoint update_all (calls : list (Z * Z)) : M unit :=
  match calls with
  | [] => ret tt
  | (u, n) :: rest => update_user_points u n ;; update_all rest
  end.

(** The value of the most recent call for [user_id]. *)
Fixpoint last_value (user_id : Z) (calls : list (Z * Z)) : option Z :=
  match calls with
  | [] => None
  | (u, n) :: rest =>
      match last_value user_id rest with
      | Some m => Some m
      | None => if u =? user_id then Some n else None
      end
  end.

(** The opens by which [ensure_csv_files] creates the missing files. *)
Definition created (fs : Files) : list Effect :=
  (match points_csv fs with None => [Open POINTS_FILE "w"] | Some _ => [] end
   ++ match settings_csv fs with None => [Open SETTINGS_FILE "w"] | Some _ => [] end
   ++ match wpt_messages_csv fs with
      | Absent => [Open WPT_MESSAGES_FILE "w"]
      | _ => []
      end)%list.

Definition file_eqb (f g : file) : bool :=
  match f, g with
  | POINTS_FILE, POINTS_FILE => true
  | SETTINGS_FILE, SETTINGS_FILE => true
  | WPT_MESSAGES_FILE, WPT_MESSAGES_FILE => true
  | _, _ => false
  end.

(** How many times the trace opens [f] for reading. *)
Definition reads_of (f : file) (t : list Effect) : nat :=
  List.length
    (filter (fun e =>
               match e with
               | Open g mode => file_eqb f g && String.eqb mode "r"
               | _ => false
               end) t).

(** The two reaction handlers differ in the operation on the balance and
    in the message printed; this is their common shape. *)
Definition adjust_on_reaction (combine : Z -> Z -> Z)
    (report : exn -> Printed) (reaction : Reaction.event) : M unit :=
  if Reaction.user_bot reaction then ret tt
  else
    try_except
      (rows <- read_wpt ;;
       message_data <- lift (find_message (Reaction.message_id reaction) rows) ;;
       match message_data with
       | None => ret tt
       | Some row =>
           emoji_points <-
             lift (dict_of_pairs
                     (map (split ":") (split "," (Campaign.emoji_points row)))
                     []) ;;
           match dict_get (Reaction.emoji reaction) emoji_points with
           | None => ret tt
           | Some text =>
               match py_int text with
               | None => raise ValueError
               | Some amount =>
                   current_points <- get_user_points (Reaction.user_id reaction) ;;
                   update_user_points (Reaction.user_id reaction)
                     (combine current_points amount)
               end
           end
       end)
      (except_Exception (fun e => emit (Print (report e)))).

(** The rows a reader of the campaign file sees. *)
Definition wpt_rows (w : wpt_file) : outcome (list (option Campaign.row)) :=
  match w with
  | Absent => Raise FileNotFoundError
  | Table rows => Ret (map Some rows)
  | Headless _ rest => Ret (map (fun _ => None) rest)
  end.

(** What a handler makes of a decoded record: the points of the emoji. *)
Definition points_of (emoji : string) (row : Campaign.row)
  : outcome (option Z) :=
  match dict_of_pairs
          (map (split ":") (split "," (Campaign.emoji_points row))) [] with
  | Raise e => Raise e
  | Ret d =>
      match dict_get emoji d with
      | None => Ret None
      | Some text =>
          match py_int text with
          | None => Raise ValueError
          | Some amount => Ret (Some amount)
          end
      end
  end.

(** The points a reaction is worth, up to the point where a handler turns
    to the ledger. *)
Definition reaction_points (reaction : Reaction.event) (w : wpt_file)
  : outcome (option Z) :=
  match wpt_rows w with
  | Raise e => Raise e
  | Ret rows =>
      match find_message (Reaction.message_id reaction) rows with
      | Raise e => Raise e
      | Ret None => Ret None
      | Ret (Some row) => points_of (Reaction.emoji reaction) row
      end
  end.

(** The files once a handler has run for a user that is no bot. *)
Definition adjusted (combine : Z -> Z -> Z) (reaction : Reaction.event)
    (fs : Files) : Files :=
  match reaction_points reaction (wpt_messages_csv fs) with
  | Ret (Some amount) =>
      match balance (Reaction.user_id reaction) fs with
      | Ret current_points =>
          updated (Reaction.user_id reaction) (combine current_points amount)
            (healed fs)
      | Raise _ => fs
      end
  | _ => fs
  end.

(** Whether the byte [c] occurs in [s]. *)
Fixpoint contains (c : ascii) (s : string) : bool :=
  match s with
  | EmptyString => false
  | String a r => Ascii.eqb a c || contains c r
  end.

(** An entry of an [emoji_points] string that [createwpt] rejects: no
    colon, or a points part that is no integer. *)
Definition malformed (entry : string) : Prop :=
  contains ":" entry = false
  \/ exists emoji points,
       split ":" entry = [emoji; points] /\ py_int points = None.

(** The value stored for a key, if any. *)
Definition stored_setting (key : string) (fs : Files) : option string :=
  match settings_csv fs with
  | None => None
  | Some rows => find_setting key rows
  end.

Section Sweep.

Variable fromisoformat : string -> parsed_datetime.

(** The test of [check_expirations] on one row. *)
Definition expired_at (now : Z) (row : Campaign.row) : bool :=
  match fromisoformat (Campaign.expiration row) with
  | Naive expiration => expiration <=? now
  | _ => false
  end.

Definition still_active (now : Z) (row : Campaign.row) : bool :=
  negb (expired_at now row).

(** A campaign record as the data model has it: integer ids and a naive
    expiration time. *)
Definition well_formed (row : Campaign.row) : Prop :=
  (exists t, fromisoformat (Campaign.expiration row) = Naive t)
  /\ (exists m, py_int (Campaign.message_id row) = Some m)
  /\ (exists c, py_int (Campaign.channel_id row) = Some c).

End Sweep.

(** [(message_id, channel_id)] of a record, as [check_expirations] lists
    it. *)
Definition row_ids (row : Campaign.row) : Z * Z :=
  (match py_int (Campaign.message_id row) with Some m => m | None => 0 end,
   match py_int (Campaign.channel_id row) with Some c => c | None => 0 end).

(** The rows of the registry. *)
Definition registry (fs : Files) : list Campaign.row :=
  match wpt_messages_csv fs with
  | Absent => []
  | Table rows => rows
  | Headless first rest => first :: rest
  end.

(** What [check_expirations] does on the platform for one expired message:
    each call is made when the one before it has returned. *)
Definition deletion_trace (chat : Platform) (ids : Z * Z) : list Effect :=
  let (message_id, channel_id) := ids in
  FetchChannel channel_id
  :: (if fetch_channel_ok chat channel_id
      then FetchMessage channel_id message_id
           :: (if fetch_message_ok chat channel_id message_id
               then [MessageDelete channel_id message_id]
               else [])
      else []).

(** A stand-in for [fromisoformat] on the three time stamps used in the
    examples: the first instants of 2024 and of 2030, and noon of
    2025-06-01. *)
Definition sample_fromisoformat (s : string) : parsed_datetime :=
  if String.eqb s "2024-01-01T00:00:00" then Naive 63839664000000000
  else if String.eqb s "2025-06-01T12:00:00" then Naive 63884376000000000
  else if String.eqb s "2030-01-01T00:00:00" then Naive 64029052800000000
  else Invalid.


(** ** Views of the settings *)

(** The rows of the settings, none when the file is absent. *)
Definition settings_rows (fs : Files) : list Setting.row :=
  match settings_csv fs with
  | None => []
  | Some rows => rows
  end.

(** The rows [set_setting] writes for the rows it has read. *)
Definition upserted (key value : string) (rows : list Setting.row)
  : list Setting.row :=
  let upd := set_value key value rows in
  if snd upd then fst upd else (fst upd ++ [Setting.mk key value])%list.

(** The files once [set_setting] has run. *)
Definition with_setting (key value : string) (fs : Files) : Files :=
  let fs' := match settings_csv fs with None => ensured fs | Some _ => fs end in
  mkFiles (points_csv fs') (Some (upserted key value (settings_rows fs)))
    (wpt_messages_csv fs').

(** A sequence of [set_setting(key, value)] calls. *)
Fixpoint set_all (calls : list (string * string)) : M unit :=
  match calls with
  | [] => ret tt
  | (key, value) :: rest => set_setting key value ;; set_all rest
  end.

(** The value of the most recent call for [key]. *)
Fixpoint last_setting (key : string) (calls : list (string * string))
  : option string :=
  match calls with
  | [] => None
  | (k, v) :: rest =>
      match last_setting key rest with
      | Some w => Some w
      | None => if String.eqb k key then Some v else None
      end
  end.

(** ** The other commands

    [setrole], [setreasonchannel], [points] and [pointset].  The messages
    such a command sends are its value, in the order they are sent. *)

Inductive Message : Type :=
| RequiredRoleSet (role : Z)
| ErrorSettingRole (e : exn)
| ReasonChannelSet (channel : Z)
| ErrorSettingChannel (e : exn)
| YouHavePoints (points : Z)
| ErrorRetrievingPoints (e : exn)
| PointAdjustment (channel moderator user value new_total : Z)
    (reason : string)
| CouldNotLog (e : exn)
| PointsUpdated (user current_points new_points : Z)
| ErrorAdjustingPoints (e : exn).

Definition setrole (role : Z) : M Message :=
  try_except
    (set_setting "required_role" (py_str role) ;;
     ret (RequiredRoleSet role))
    (except_Exception (fun e => ret (ErrorSettingRole e))).

Definition setreasonchannel (channel : Z) : M Message :=
  try_except
    (set_setting "reason_channel" (py_str channel) ;;
     ret (ReasonChannelSet channel))
    (except_Exception (fun e => ret (ErrorSettingChannel e))).

Definition points (user : Z) : M Message :=
  try_except
    (points <- get_user_points user ;;
     ret (YouHavePoints points))
    (except_Exception (fun e => ret (ErrorRetrievingPoints e))).

(** The platform as [pointset] meets it: whether [bot.fetch_channel] and
    [reason_channel.send] return for a channel, and whether
    [interaction.followup.send] returns. *)
Record AuditLog : Type :=
  mkAuditLog { log_fetch_ok : Z -> bool;
               log_send_ok : Z -> bool;
               followup_ok : bool }.

Definition pointset (log : AuditLog) (moderator user value : Z)
    (reason : string) : M (list Message) :=
  try_except
    (current_points <- get_user_points user ;;
     let new_points := current_points + value in
     update_user_points user new_points ;;
     reason_channel_id <- get_setting "reason_channel" ;;
     logged <-
       match reason_channel_id with
       | None => ret []
       | Some "" => ret []
       | Some text =>
           try_except
             (match py_int text with
              | None => raise ValueError
              | Some channel =>
                  if log_fetch_ok log channel && log_send_ok log channel
                  then ret [PointAdjustment channel moderator user value
                              new_points reason]
                  else raise HTTPException
              end)
             (except_Exception
                (fun e =>
                   if followup_ok log then ret [CouldNotLog e]
                   else raise HTTPException))
       end ;;
     ret (logged ++ [PointsUpdated user current_points new_points])%list)
    (except_Exception (fun e => ret [ErrorAdjustingPoints e])).

(** The files once [get_setting] has run. *)
Definition settings_healed (fs : Files) : Files :=
  match settings_csv fs with
  | None => ensured fs
  | Some _ => fs
  end.

(** What [pointset] sends about the logging of one adjustment, given the
    stored ['reason_channel']; [Raise] when the warning itself fails. *)
Definition logged_messages (log : AuditLog) (stored : option string)
    (moderator user value new_points : Z) (reason : string)
  : outcome (list Message) :=
  match stored with
  | None => Ret []
  | Some "" => Ret []
  | Some text =>
      match py_int text with
      | Some channel =>
          if log_fetch_ok log channel && log_send_ok log channel
          then Ret [PointAdjustment channel moderator user value new_points
                      reason]
          else if followup_ok log then Ret [CouldNotLog HTTPException]
               else Raise HTTPException
      | None =>
          if followup_ok log then Ret [CouldNotLog ValueError]
          else Raise HTTPException
      end
  end.

Section Undecodable.

Variable fromisoformat : string -> parsed_datetime.

(** A row on which the first loop of [check_expirations] raises: its
    expiration is no naive time, or it has expired and one of its ids is no
    integer. *)
Definition undecodable (now : Z) (row : Campaign.row) : Prop :=
  match fromisoformat (Campaign.expiration row) with
  | Naive t =>
      t <= now
      /\ (py_int (Campaign.message_id row) = None
          \/ py_int (Campaign.channel_id row) = None)
  | _ => True
  end.

End Undecodable.




(** Two states of the files with the same rows in the ledger, in the
    settings and in the registry; they differ at most in which files
    exist. *)
Definition same_data (fs fs' : Files) : Prop :=
  ledger_rows fs = ledger_rows fs'
  /\ settings_rows fs = settings_rows fs'
  /\ registry fs = registry fs'.

(** * Properties *)

(** ** [int(str(n)) = n] *)

Lemma digit_char_cases (d : Z) :
  0 <= d < 10 ->
  d = 0 \/ d = 1 \/ d = 2 \/ d = 3 \/ d = 4 \/
  d = 5 \/ d = 6 \/ d = 7 \/ d = 8 \/ d = 9.
Proof. lia. Qed.

Ltac each_digit d H :=
  destruct (digit_char_cases d H) as [?|[?|[?|[?|[?|[?|[?|[?|[?|?]]]]]]]]];
  subst d.

Lemma is_digit_digit_char (d : Z) :
  0 <= d < 10 -> is_digit (digit_char d) = true.
Proof. intros H. each_digit d H; reflexivity. Qed.

Lemma digit_value_digit_char (d : Z) :
  0 <= d < 10 -> digit_value (digit_char d) = d.
Proof. intros H. each_digit d H; reflexivity. Qed.

Lemma digit_char_low (d : Z) :
  0 <= d < 10 ->
  int_ws (digit_char d) = false /\ (byte (digit_char d) <? 128) = true
  /\ Ascii.eqb (digit_char d) "+" = false
  /\ Ascii.eqb (digit_char d) "-" = false.
Proof. intros H. each_digit d H; repeat split; reflexivity. Qed.

Lemma digits_of_parse (fuel : nat) :
  forall n rest, 0 <= n < 10 ^ Z.of_nat fuel -> fuel <> O ->
  exists k, 0 < k /\
    forall b a, digits_acc b a (digits_of fuel n rest)
                = digits_acc true (a * 10 ^ k + n) rest.
Proof.
  induction fuel as [|f IH]; intros n rest Hn Hf.
  - congruence.
  - cbn [digits_of]. destruct (n <? 10) eqn:E.
    + apply Z.ltb_lt in E. exists 1. split; [lia|]. intros b a.
      cbn [digits_acc]. rewrite is_digit_digit_char by lia.
      rewrite digit_value_digit_char by lia. f_equal. lia.
    + apply Z.ltb_ge in E.
      assert (Hq : 0 <= n / 10 < 10 ^ Z.of_nat f).
      { split; [apply Z.div_pos; lia|].
        apply Z.div_lt_upper_bound; [lia|].
        replace (Z.of_nat (S f)) with (Z.succ (Z.of_nat f)) in Hn by lia.
        rewrite Z.pow_succ_r in Hn by lia. lia. }
      assert (Hf' : f <> O).
      { intros ->. cbn in Hq. pose proof (Z.div_mod n 10).
        pose proof (Z.mod_pos_bound n 10). lia. }
      destruct (IH (n / 10) (String (digit_char (n mod 10)) rest) Hq Hf')
        as [k [Hk Hp]].
      exists (k + 1). split; [lia|]. intros b a.
      rewrite Hp. cbn [digits_acc].
      assert (Hm : 0 <= n mod 10 < 10) by (apply Z.mod_pos_bound; lia).
      rewrite is_digit_digit_char by exact Hm.
      rewrite digit_value_digit_char by exact Hm.
      f_equal. rewrite Z.pow_add_r by lia.
      pose proof (Z.div_mod n 10). lia.
Qed.

(** The literal [digits_of] writes: its first byte and its last byte are
    digits. *)
Lemma digits_of_shape (fuel : nat) :
  forall n rest, 0 <= n < 10 ^ Z.of_nat fuel -> fuel <> O ->
  exists d p, 0 <= d < 10 /\ digits_of fuel n rest = String (digit_char d) (p ++ rest).
Proof.
  induction fuel as [|f IH]; intros n rest Hn Hf.
  - congruence.
  - cbn [digits_of]. destruct (n <? 10) eqn:E.
    + apply Z.ltb_lt in E. exists n, EmptyString. split; [lia|reflexivity].
    + apply Z.ltb_ge in E.
      assert (Hq : 0 <= n / 10 < 10 ^ Z.of_nat f).
      { split; [apply Z.div_pos; lia|].
        apply Z.div_lt_upper_bound; [lia|].
        replace (Z.of_nat (S f)) with (Z.succ (Z.of_nat f)) in Hn by lia.
        rewrite Z.pow_succ_r in Hn by lia. lia. }
      assert (Hf' : f <> O).
      { intros ->. cbn in Hq. pose proof (Z.div_mod n 10).
        pose proof (Z.mod_pos_bound n 10). lia. }
      destruct (IH (n / 10) (String (digit_char (n mod 10)) rest) Hq Hf')
        as [d [p [Hd Hp]]].
      exists d, (p ++ String (digit_char (n mod 10)) EmptyString)%string.
      split; [exact Hd|]. rewrite Hp. f_equal.
      clear. induction p as [|c p IHp]; [reflexivity|].
      cbn [String.append]. now rewrite IHp.
Qed.

Lemma fuel_enough (n : Z) :
  0 <= n -> 0 <= n < 10 ^ Z.of_nat (S (Z.to_nat (Z.log2 n))).
Proof.
  intros Hn. split; [exact Hn|].
  pose proof (Z.log2_nonneg n) as Hl.
  replace (Z.of_nat (S (Z.to_nat (Z.log2 n)))) with (Z.succ (Z.log2 n)) by lia.
  destruct (Z.eq_dec n 0) as [->|Hz].
  - cbn. lia.
  - assert (H2 : n < 2 ^ Z.succ (Z.log2 n)) by (apply Z.log2_spec; lia).
    assert (H10 : 2 ^ Z.succ (Z.log2 n) <= 10 ^ Z.succ (Z.log2 n))
      by (apply Z.pow_le_mono_l; lia).
    lia.
Qed.

Lemma to_ascii_low (a : ascii) (r : string) :
  (byte a <? 128) = true -> to_ascii (String a r) = String a (to_ascii r).
Proof. intros H. cbn [to_ascii]. now rewrite H. Qed.

(** The literal [digits_of] writes is ASCII. *)
Lemma to_ascii_digits_of (fuel : nat) :
  forall n rest, 0 <= n -> to_ascii rest = rest ->
  to_ascii (digits_of fuel n rest) = digits_of fuel n rest.
Proof.
  induction fuel as [|f IH]; intros n rest Hn Hrest; [exact Hrest|].
  cbn [digits_of]. destruct (n <? 10) eqn:E.
  - apply Z.ltb_lt in E.
    destruct (digit_char_low n (conj Hn E)) as (_ & Hl & _).
    now rewrite (to_ascii_low _ _ Hl), Hrest.
  - assert (Hm : 0 <= n mod 10 < 10) by (apply Z.mod_pos_bound; lia).
    destruct (digit_char_low _ Hm) as (_ & Hl & _).
    apply IH; [apply Z.div_pos; lia|].
    now rewrite (to_ascii_low _ _ Hl), Hrest.
Qed.

Lemma skip_ws_stop (a : ascii) (r : string) :
  int_ws a = false -> skip_ws (String a r) = String a r.
Proof. intros H. cbn [skip_ws]. now rewrite H. Qed.

Lemma rev_onto_app (p q acc : string) :
  rev_onto (p ++ q) acc = rev_onto q (rev_onto p acc).
Proof.
  revert acc. induction p as [|c p IH]; intros acc; [reflexivity|].
  cbn [String.append rev_onto]. apply IH.
Qed.

Lemma append_empty_r (s : string) : (s ++ "")%string = s.
Proof. induction s as [|c s IH]; [reflexivity|]. cbn. now rewrite IH. Qed.

Lemma rev_onto_rev_onto (s a b : string) :
  rev_onto (rev_onto s a) b = rev_onto a (s ++ b).
Proof.
  revert a b. induction s as [|c s IH]; intros a b; [reflexivity|].
  cbn [rev_onto String.append]. rewrite IH. reflexivity.
Qed.

Lemma rev_rev (s : string) : rev (rev s) = s.
Proof.
  unfold rev. rewrite rev_onto_rev_onto. cbn [rev_onto]. apply append_empty_r.
Qed.

Lemma skip_ws_back (q : string) (x : ascii) :
  int_ws x = false ->
  rev (skip_ws (rev (q ++ String x ""))) = (q ++ String x "")%string.
Proof.
  intros Hw.
  assert (E : rev (q ++ String x "") = String x (rev q)).
  { unfold rev. rewrite rev_onto_app. reflexivity. }
  rewrite E, (skip_ws_stop _ _ Hw), <- E. apply rev_rev.
Qed.

(** The literal of a natural number: a digit first, a digit last, and it
    reads back as the number. *)
Lemma digits_of_literal (n : Z) :
  0 <= n ->
  let s := digits_of (S (Z.to_nat (Z.log2 n))) n "" in
  (exists d r, 0 <= d < 10 /\ s = String (digit_char d) r)
  /\ (exists q d, 0 <= d < 10 /\ s = (q ++ String (digit_char d) "")%string)
  /\ digits_acc false 0 s = Some n.
Proof.
  intros Hn s. pose proof (fuel_enough n Hn) as Hf.
  assert (Hne : S (Z.to_nat (Z.log2 n)) <> O) by discriminate.
  repeat split.
  - destruct (digits_of_shape _ n "" Hf Hne) as [d [p [Hd Hp]]].
    exists d, (p ++ "")%string. split; [exact Hd|exact Hp].
  - subst s. cbn [digits_of]. destruct (n <? 10) eqn:E.
    + apply Z.ltb_lt in E. exists EmptyString, n. split; [lia|reflexivity].
    + apply Z.ltb_ge in E.
      assert (Hm : 0 <= n mod 10 < 10) by (apply Z.mod_pos_bound; lia).
      destruct (Z.to_nat (Z.log2 n)) as [|f] eqn:Ef.
      * exfalso. cbn in Hf. lia.
      * assert (Hq : 0 <= n / 10 < 10 ^ Z.of_nat (S f)).
        { split; [apply Z.div_pos; lia|].
          apply Z.div_lt_upper_bound; [lia|].
          replace (Z.of_nat (S (S f))) with (Z.succ (Z.of_nat (S f))) in Hf
            by lia.
          rewrite Z.pow_succ_r in Hf by lia. lia. }
        destruct (digits_of_shape (S f) (n / 10)
                    (String (digit_char (n mod 10)) "") Hq)
          as [d [p [Hd Hp]]]; [discriminate|].
        exists (String (digit_char d) p), (n mod 10).
        split; [exact Hm|]. rewrite Hp. reflexivity.
  - destruct (digits_of_parse _ n "" Hf Hne) as [k [Hk Hp]].
    subst s. rewrite Hp. reflexivity.
Qed.

(** No white space is found around the literal of a natural number, with
    or without a sign before it. *)
Lemma skip_ws_digits_of (n : Z) (pre : string) :
  0 <= n -> (pre = "" \/ pre = "-") ->
  let s := (pre ++ digits_of (S (Z.to_nat (Z.log2 n))) n "")%string in
  rev (skip_ws (rev (skip_ws (to_ascii s)))) = s.
Proof.
  intros Hn Hpre s.
  assert (Ha : to_ascii s = s).
  { subst s. destruct Hpre as [-> | ->]; cbn [String.append].
    - now apply to_ascii_digits_of.
    - rewrite to_ascii_low by reflexivity. f_equal.
      now apply to_ascii_digits_of. }
  rewrite Ha.
  destruct (digits_of_literal n Hn) as [[d [r [Hd Hs]]] [[q [x [Hx Hq]]] _]].
  destruct (digit_char_low d Hd) as (Wd & _).
  destruct (digit_char_low x Hx) as (Wx & _).
  subst s. destruct Hpre as [-> | ->].
  - cbn [String.append]. rewrite Hs at 1. rewrite (skip_ws_stop _ _ Wd).
    rewrite <- Hs, Hq. now apply skip_ws_back.
  - cbn [String.append]. rewrite skip_ws_stop by reflexivity. rewrite Hq.
    now apply (skip_ws_back (String "-" q)).
Qed.

Lemma py_int_py_str (n : Z) : py_int (py_str n) = Some n.
Proof.
  unfold py_str, py_int. destruct (n <? 0) eqn:E.
  - apply Z.ltb_lt in E.
    pose proof (skip_ws_digits_of (- n) "-" ltac:(lia) (or_intror eq_refl))
      as Hs.
    cbn [String.append] in Hs. cbv zeta in Hs. rewrite Hs.
    destruct (digits_of_literal (- n) ltac:(lia)) as (_ & _ & Hp).
    cbv zeta in Hp. cbn [Ascii.eqb Bool.eqb]. rewrite Hp. cbn. f_equal. lia.
  - apply Z.ltb_ge in E.
    pose proof (skip_ws_digits_of n "" E (or_introl eq_refl)) as Hs.
    cbn [String.append] in Hs. cbv zeta in Hs. rewrite Hs.
    destruct (digits_of_literal n E) as ([d [r [Hd Hr]]] & _ & Hp).
    cbv zeta in Hp, Hr. rewrite Hr in *.
    destruct (digit_char_low d Hd) as (_ & _ & Hplus & Hminus).
    rewrite Hplus, Hminus. exact Hp.
Qed.

(** [int] reads the decimal digits and the white space of every script,
    and takes FS..US, which [strip] removes, for no white space. *)
Example py_int_reads_every_script :
  py_int "５" = Some 5
  /\ py_int " -１２　" = Some (-12)
  /\ py_int "٥٣" = Some 53
  /\ py_int "1_000" = Some 1000
  /\ py_int "five" = None
  /\ py_int "²" = None
  /\ py_int (String (ascii_of_N 28) "5") = None
  /\ strip (String (ascii_of_N 28) "5") = "5".
Proof. repeat split; reflexivity. Qed.

(** ** The ledger rows *)

Lemma updated_rows_get (u n : Z) (rows rows' : list Ledger.row) :
  updated_rows u n rows = Ret rows' -> find_points u rows' = Ret (Some n).
Proof.
  unfold updated_rows. revert rows'.
  induction rows as [|row rest IH]; intros rows'; cbn [set_points].
  - intros [= <-]. cbn. rewrite !py_int_py_str, Z.eqb_refl. reflexivity.
  - destruct (py_int (Ledger.user_id row)) as [k|] eqn:Ek; [|discriminate].
    destruct (k =? u) eqn:E.
    + intros [= <-]. cbn. rewrite Ek, E, py_int_py_str. reflexivity.
    + destruct (set_points u (py_str n) rest) as [[rest' b]|e]; [|discriminate].
      destruct b; intros [= <-]; cbn [app find_points]; rewrite Ek, E;
        now apply IH.
Qed.

Lemma updated_rows_frame (u n v : Z) (rows rows' : list Ledger.row) :
  updated_rows u n rows = Ret rows' -> v <> u ->
  find_points v rows' = find_points v rows.
Proof.
  unfold updated_rows. intros H Hv. revert rows' H.
  induction rows as [|row rest IH]; intros rows'; cbn [set_points].
  - intros [= <-]. cbn. rewrite py_int_py_str.
    destruct (u =? v) eqn:E; [apply Z.eqb_eq in E; congruence|reflexivity].
  - destruct (py_int (Ledger.user_id row)) as [k|] eqn:Ek; [|discriminate].
    destruct (k =? u) eqn:E.
    + intros [= <-]. cbn. rewrite Ek. apply Z.eqb_eq in E. subst k.
      destruct (u =? v) eqn:E'; [apply Z.eqb_eq in E'; congruence|reflexivity].
    + destruct (set_points u (py_str n) rest) as [[rest' b]|e]; [|discriminate].
      destruct b; intros [= <-]; cbn [app find_points]; rewrite Ek;
        destruct (k =? v); try reflexivity; now apply IH.
Qed.

Lemma updated_rows_ok (u n : Z) (rows : list Ledger.row) :
  Forall uid_ok rows ->
  exists rows', updated_rows u n rows = Ret rows' /\ Forall uid_ok rows'.
Proof.
  unfold updated_rows.
  induction 1 as [|row rest Hrow Hrest IH]; cbn [set_points].
  - eexists. split; [reflexivity|]. repeat constructor.
    unfold uid_ok. cbn. rewrite py_int_py_str. discriminate.
  - unfold uid_ok in Hrow.
    destruct (py_int (Ledger.user_id row)) as [k|] eqn:Ek; [|congruence].
    destruct (k =? u).
    + eexists. split; [reflexivity|]. constructor; [|exact Hrest].
      unfold uid_ok. cbn. congruence.
    + destruct IH as [rows' [E Hok]].
      destruct (set_points u (py_str n) rest) as [[rest' b]|e]; [|discriminate].
      destruct b; injection E as <-; eexists; (split; [reflexivity|]);
        cbn [app]; constructor; try assumption; unfold uid_ok; congruence.
Qed.

Lemma updated_rows_found (u n : Z) (rows : list Ledger.row)
    (x : option Z) :
  find_points u rows = Ret x -> exists rows', updated_rows u n rows = Ret rows'.
Proof.
  unfold updated_rows. revert x.
  induction rows as [|row rest IH]; intros x; cbn [set_points find_points].
  - eexists. reflexivity.
  - destruct (py_int (Ledger.user_id row)) as [k|]; [|discriminate].
    destruct (k =? u).
    + eexists. reflexivity.
    + intros H. destruct (IH _ H) as [rows' E].
      destruct (set_points u (py_str n) rest) as [[rest' b]|e]; [|discriminate].
      destruct b; eexists; reflexivity.
Qed.

Lemma find_points_raise (u : Z) (rows : list Ledger.row) (e : exn) :
  find_points u rows = Raise e -> e = ValueError.
Proof.
  induction rows as [|row rest IH]; cbn [find_points]; [discriminate|].
  destruct (py_int (Ledger.user_id row)) as [k|]; [|congruence].
  destruct (k =? u); [|exact IH].
  destruct (py_int (Ledger.points row)); congruence.
Qed.

Lemma set_points_raise (u : Z) (v : string) (rows : list Ledger.row)
    (e : exn) :
  set_points u v rows = Raise e -> e = ValueError.
Proof.
  induction rows as [|row rest IH]; cbn [set_points]; [discriminate|].
  destruct (py_int (Ledger.user_id row)) as [k|]; [|congruence].
  destruct (k =? u); [discriminate|].
  destruct (set_points u v rest) as [[rest' b]|e']; [discriminate|].
  intros [= <-]. now apply IH.
Qed.

(** ** The monadic code against the views *)

Lemma ensure_csv_files_spec (s : State) :
  fst (ensure_csv_files s) = Ret tt
  /\ files (snd (ensure_csv_files s)) = ensured (files s).
Proof.
  destruct s as [[p st w] t].
  destruct p, st, w; split; reflexivity.
Qed.

Lemma get_user_points_spec (u : Z) (s : State) :
  fst (get_user_points u s) = balance u (files s)
  /\ files (snd (get_user_points u s)) = healed (files s).
Proof.
  destruct s as [[p st w] t]. unfold balance, healed. cbn [files points_csv].
  destruct p as [rows|].
  - unfold get_user_points, try_except, bind, read_points, emit, get_files,
      lift, ret. cbn.
    destruct (find_points u rows) as [[n|]|e] eqn:E; cbn;
      [split; reflexivity ..|].
    apply find_points_raise in E. subst e. split; reflexivity.
  - destruct st, w; split; reflexivity.
Qed.

Lemma update_user_points_rec_spec (d : nat) (u n : Z) (s : State) :
  files (snd (update_user_points_rec (S d) u n s)) = updated u n (files s)
  /\ fst (update_user_points_rec (S d) u n s)
     = match updated_rows u n (ledger_rows (files s)) with
       | Ret _ => Ret tt
       | Raise e => Raise e
       end.
Proof.
  destruct s as [[p st w] t].
  unfold updated, updated_rows, ledger_rows, healed. cbn [files points_csv].
  destruct p as [rows|].
  - destruct d; cbn [update_user_points_rec];
      unfold try_except, bind, read_points, write_points, emit, get_files,
        put_files, lift, ret; cbn;
      destruct (set_points u (py_str n) rows) as [[rows' b]|e] eqn:E; cbn;
      try (destruct b; split; reflexivity);
      apply set_points_raise in E; subst e; split; reflexivity.
  - destruct d; destruct st, w; split; reflexivity.
Qed.

Lemma update_user_points_spec (u n : Z) (s : State) :
  files (snd (update_user_points u n s)) = updated u n (files s)
  /\ fst (update_user_points u n s)
     = match updated_rows u n (ledger_rows (files s)) with
       | Ret _ => Ret tt
       | Raise e => Raise e
       end.
Proof. apply (update_user_points_rec_spec 999). Qed.

(** ** The ledger as a function of the files *)

Lemma balance_healed (u : Z) (fs : Files) : balance u (healed fs) = balance u fs.
Proof.
  destruct fs as [p st w]. unfold balance, healed. cbn.
  destruct p; reflexivity.
Qed.

Lemma balance_updated_frame (u n v : Z) (fs : Files) :
  v <> u -> balance v (updated u n fs) = balance v fs.
Proof.
  intros Hv. unfold updated.
  destruct (updated_rows u n (ledger_rows fs)) as [rows'|e] eqn:E;
    [|reflexivity].
  unfold balance at 1. cbn [points_csv].
  rewrite (updated_rows_frame _ _ _ _ _ E Hv).
  unfold balance, ledger_rows. destruct (points_csv fs); reflexivity.
Qed.

Lemma balance_updated (u n : Z) (fs : Files) (rows' : list Ledger.row) :
  updated_rows u n (ledger_rows fs) = Ret rows' ->
  balance u (updated u n fs) = Ret n.
Proof.
  intros E. unfold updated. rewrite E. unfold balance. cbn [points_csv].
  now rewrite (updated_rows_get _ _ _ _ E).
Qed.

Lemma ledger_ok_updated (u n : Z) (fs : Files) :
  ledger_ok fs ->
  ledger_ok (updated u n fs) /\ balance u (updated u n fs) = Ret n.
Proof.
  intros Hok. destruct (updated_rows_ok u n _ Hok) as [rows' [E Hok']].
  split; [|exact (balance_updated _ _ _ _ E)].
  unfold updated. rewrite E. exact Hok'.
Qed.

Lemma user_ids_app (l1 l2 : list Ledger.row) :
  user_ids (l1 ++ l2) = (user_ids l1 ++ user_ids l2)%list.
Proof.
  induction l1 as [|row rest IH]; [reflexivity|]. cbn.
  destruct (py_int (Ledger.user_id row)); cbn; now rewrite IH.
Qed.

Lemma set_points_ids (u : Z) (v : string) (rows rows' : list Ledger.row)
    (b : bool) :
  set_points u v rows = Ret (rows', b) ->
  user_ids rows' = user_ids rows
  /\ entries_of_others u rows' = entries_of_others u rows
  /\ (b = false -> ~ In u (user_ids rows)).
Proof.
  revert rows' b.
  induction rows as [|row rest IH]; intros rows' b; cbn [set_points].
  - intros [= <- <-]. repeat split. intros _ [].
  - destruct (py_int (Ledger.user_id row)) as [k|] eqn:Ek; [|discriminate].
    destruct (k =? u) eqn:E.
    + intros [= <- <-]. unfold entries_of_others. cbn. rewrite Ek, E.
      repeat split. discriminate.
    + destruct (set_points u v rest) as [[rest' b']|e]; [|discriminate].
      intros [= <- <-]. destruct (IH _ _ eq_refl) as (H1 & H2 & H3).
      repeat split.
      * cbn [user_ids]. rewrite Ek. now rewrite H1.
      * unfold entries_of_others in *. cbn [filter]. rewrite Ek, E.
        cbn [negb]. now rewrite H2.
      * intros Hb. cbn [user_ids]. rewrite Ek. intros [Hk|Hin];
          [|now apply H3].
        apply Z.eqb_neq in E. congruence.
Qed.

Lemma updated_rows_ids (u n : Z) (rows rows' : list Ledger.row) :
  updated_rows u n rows = Ret rows' ->
  entries_of_others u rows' = entries_of_others u rows
  /\ (NoDup (user_ids rows) -> NoDup (user_ids rows')).
Proof.
  unfold updated_rows.
  destruct (set_points u (py_str n) rows) as [[r b]|e] eqn:E; [|discriminate].
  destruct (set_points_ids _ _ _ _ _ E) as (H1 & H2 & H3).
  destruct b; intros [= <-].
  - rewrite H1. now split.
  - split.
    + unfold entries_of_others in *. rewrite filter_app, H2. cbn.
      rewrite py_int_py_str, Z.eqb_refl. cbn. apply app_nil_r.
    + intros Hnd. rewrite user_ids_app, H1. cbn. rewrite py_int_py_str.
      apply NoDup_app; [exact Hnd|repeat constructor; intros []|].
      intros x Hx [<-|[]]. now apply H3.
Qed.

(** C10: [update_user_points(u, n)] changes at most the entry of [u]: for
    every other user [v], [get_user_points(v)] returns after the call what it
    returned before, the rows that are not entries of [u] are the same, and a
    ledger with at most one entry per user still has at most one entry per
    user. *)
Theorem update_user_points_changes_one_entry (s : State) (u n v : Z) :
  v <> u ->
  let s' := snd (update_user_points u n s) in
  fst (get_user_points v s') = fst (get_user_points v s)
  /\ entries_of_others u (ledger_rows (files s'))
     = entries_of_others u (ledger_rows (files s))
  /\ (one_entry_per_user (files s) -> one_entry_per_user (files s')).
Proof.
  intros Hv s'. subst s'.
  destruct (update_user_points_spec u n s) as [Hf _].
  destruct (get_user_points_spec v (snd (update_user_points u n s))) as [-> _].
  destruct (get_user_points_spec v s) as [-> _].
  rewrite Hf. split; [now apply balance_updated_frame|].
  unfold one_entry_per_user, updated.
  destruct (updated_rows u n (ledger_rows (files s))) as [rows'|e] eqn:E;
    [|now split].
  destruct (updated_rows_ids _ _ _ _ E) as [H1 H2].
  unfold ledger_rows at 1 3. cbn [points_csv]. now split.
Qed.

Lemma update_user_points_changes_one_entry_witness :
  let s := mkState (mkFiles (Some [Ledger.mk "1" "10"; Ledger.mk "2" "20"])
                      (Some []) (Table [])) [] in
  let s' := snd (update_user_points 1 15 s) in
  fst (get_user_points 2 s') = Ret 20
  /\ fst (get_user_points 1 s') = Ret 15
  /\ one_entry_per_user (files s').
Proof.
  intros s s'.
  destruct (update_user_points_changes_one_entry s 1 15 2 ltac:(lia))
    as (H1 & _ & H3).
  fold s' in H1, H3.
  split; [rewrite H1; reflexivity|].
  split; [reflexivity|].
  apply H3. unfold one_entry_per_user. cbn.
  repeat constructor; cbn; intuition discriminate.
Defined.

(** ** Sequences of updates *)

Lemma update_all_frame (u : Z) (calls : list (Z * Z)) :
  forall s, last_value u calls = None ->
  balance u (files (snd (update_all calls s))) = balance u (files s).
Proof.
  induction calls as [|[v m] rest IH]; intros s H; [reflexivity|].
  cbn [last_value] in H.
  destruct (last_value u rest) as [x|] eqn:El; [discriminate|].
  destruct (v =? u) eqn:Ev; [discriminate|]. apply Z.eqb_neq in Ev.
  cbn [update_all]. unfold bind.
  destruct (update_user_points_spec v m s) as [Hf _].
  destruct (update_user_points v m s) as [[[]|e] s1]; cbn [snd] in *.
  - rewrite IH by reflexivity. rewrite Hf.
    apply balance_updated_frame. congruence.
  - rewrite Hf. apply balance_updated_frame. congruence.
Qed.

Lemma update_all_ok (calls : list (Z * Z)) :
  forall s, ledger_ok (files s) ->
  fst (update_all calls s) = Ret tt
  /\ ledger_ok (files (snd (update_all calls s))).
Proof.
  induction calls as [|[v m] rest IH]; intros s Hok; [now split|].
  cbn [update_all]. unfold bind.
  destruct (update_user_points_spec v m s) as [Hf Hr].
  destruct (updated_rows_ok v m _ Hok) as [rows' [E _]].
  rewrite E in Hr.
  destruct (update_user_points v m s) as [[[]|e] s1]; cbn [fst snd] in *;
    [|discriminate].
  apply IH. rewrite Hf. now apply ledger_ok_updated.
Qed.

(** C2: after any sequence of [update_user_points] calls on a ledger whose
    user ids are integers, [get_user_points(u)] returns the value of the most
    recent call for [u], whatever calls were made for other users. *)
Theorem get_user_points_after_updates (s : State) (calls : list (Z * Z))
    (u n : Z) :
  ledger_ok (files s) ->
  last_value u calls = Some n ->
  fst (update_all calls s) = Ret tt
  /\ fst (get_user_points u (snd (update_all calls s))) = Ret n.
Proof.
  intros Hok Hl. split; [now apply update_all_ok|].
  destruct (get_user_points_spec u (snd (update_all calls s))) as [-> _].
  revert s Hok Hl.
  induction calls as [|[v m] rest IH]; intros s Hok Hl; [discriminate|].
  cbn [last_value] in Hl. cbn [update_all]. unfold bind.
  destruct (update_user_points_spec v m s) as [Hf Hr].
  destruct (updated_rows_ok v m _ Hok) as [rows' [E _]].
  rewrite E in Hr.
  destruct (ledger_ok_updated v m _ Hok) as [Hok' Hb].
  destruct (update_user_points v m s) as [[[]|e] s1]; cbn [fst snd] in *;
    [|discriminate].
  rewrite <- Hf in Hok', Hb.
  destruct (last_value u rest) as [x|] eqn:El.
  - apply IH; assumption.
  - destruct (v =? u) eqn:Ev; [|discriminate].
    apply Z.eqb_eq in Ev. subst v. injection Hl as <-.
    rewrite update_all_frame by exact El. exact Hb.
Qed.

Lemma get_user_points_after_updates_witness :
  let s := mkState (mkFiles (Some [Ledger.mk "7" "1"]) (Some []) (Table [])) [] in
  let calls := [(42, 5); (7, 3); (42, 9); (8, 1)] in
  fst (get_user_points 42 (snd (update_all calls s))) = Ret 9.
Proof.
  intros s calls.
  refine (proj2 (get_user_points_after_updates s calls 42 9 _ eq_refl)).
  unfold ledger_ok. cbn. repeat constructor. unfold uid_ok. cbn. discriminate.
Defined.

(** ** Reading a user that was never written *)

Lemma get_user_points_absent (u : Z) (s : State) :
  points_csv (files s) = None ->
  get_user_points u s
  = (Ret 0, mkState (ensured (files s))
              (trace s ++ Open POINTS_FILE "r" :: created (files s))).
Proof.
  destruct s as [[p st w] t]. cbn [files points_csv]. intros ->.
  unfold created. cbn [points_csv settings_csv wpt_messages_csv].
  unfold get_user_points, try_except, bind, read_points, ensure_csv_files,
    write_points, write_settings, write_wpt, emit, get_files, put_files,
    raise, ret.
  destruct st, w; cbn; rewrite <- ?app_assoc; reflexivity.
Qed.

Lemma reads_of_app (f : file) (t1 t2 : list Effect) :
  reads_of f (t1 ++ t2) = (reads_of f t1 + reads_of f t2)%nat.
Proof. unfold reads_of. now rewrite filter_app, length_app. Qed.

Lemma reads_of_created (fs : Files) : reads_of POINTS_FILE (created fs) = O.
Proof.
  destruct fs as [p st w]. unfold created.
  destruct p, st, w; reflexivity.
Qed.

(** C7, amended: [get_user_points(u)] returns 0 for a user that was never
    written; when the points file is absent the read creates the missing
    files with their headers and returns 0 at once: the file is opened for
    reading a single time, not read again. *)
Theorem get_user_points_never_written (s : State) (calls : list (Z * Z))
    (u : Z) :
  ledger_rows (files s) = [] ->
  last_value u calls = None ->
  fst (get_user_points u (snd (update_all calls s))) = Ret 0
  /\ (points_csv (files s) = None ->
      fst (get_user_points u s) = Ret 0
      /\ files (snd (get_user_points u s)) = ensured (files s)
      /\ reads_of POINTS_FILE (trace (snd (get_user_points u s)))
         = S (reads_of POINTS_FILE (trace s))).
Proof.
  intros Hrows Hl. split.
  - destruct (get_user_points_spec u (snd (update_all calls s))) as [-> _].
    rewrite update_all_frame by exact Hl.
    unfold balance. unfold ledger_rows in Hrows.
    destruct (points_csv (files s)); [subst|]; reflexivity.
  - intros Habs. rewrite (get_user_points_absent u s Habs). cbn [fst snd files trace].
    repeat split.
    change (Open POINTS_FILE "r" :: created (files s))
      with ([Open POINTS_FILE "r"] ++ created (files s))%list.
    rewrite !reads_of_app, reads_of_created. cbn. lia.
Qed.

Lemma get_user_points_never_written_witness :
  let s := mkState (mkFiles None (Some []) Absent) [] in
  fst (get_user_points 42 (snd (update_all [(7, 3); (8, 1)] s))) = Ret 0
  /\ files (snd (get_user_points 42 s)) = mkFiles (Some []) (Some []) (Table [])
  /\ reads_of POINTS_FILE (trace (snd (get_user_points 42 s))) = 1%nat.
Proof.
  intros s.
  destruct (get_user_points_never_written s [(7, 3); (8, 1)] 42 eq_refl eq_refl)
    as [H1 H2].
  destruct (H2 eq_refl) as (_ & H3 & H4).
  split; [exact H1|]. split; [exact H3|exact H4].
Defined.

(** C7, as stated, fails: with the points file absent the read is not
    retried; the file is opened for reading once, then created, and 0 is
    returned. *)
Lemma get_user_points_absent_not_retried :
  let s := mkState (mkFiles None None Absent) [] in
  get_user_points 42 s
  = (Ret 0,
     mkState (mkFiles (Some []) (Some []) (Table []))
       [Open POINTS_FILE "r"; Open POINTS_FILE "w"; Open SETTINGS_FILE "w";
        Open WPT_MESSAGES_FILE "w"])
  /\ reads_of POINTS_FILE (trace (snd (get_user_points 42 s))) <> 2%nat.
Proof. split; [reflexivity|discriminate]. Qed.

(** ** The reaction handlers *)

Lemma on_reaction_add_shape :
  on_reaction_add = adjust_on_reaction Z.add ErrorProcessingReaction.
Proof. reflexivity. Qed.

Lemma on_reaction_remove_shape :
  on_reaction_remove = adjust_on_reaction Z.sub ErrorProcessingRemoval.
Proof. reflexivity. Qed.

Lemma read_wpt_spec (s : State) :
  read_wpt s
  = (wpt_rows (wpt_messages_csv (files s)),
     mkState (files s) (trace s ++ [Open WPT_MESSAGES_FILE "r"])).
Proof.
  destruct s as [[p st w] t]. destruct w; reflexivity.
Qed.


Lemma bind_unfold {A B : Type} (m : M A) (k : A -> M B) (s : State) :
  bind m k s
  = match m s with
    | (Ret a, s') => k a s'
    | (Raise e, s') => (Raise e, s')
    end.
Proof. reflexivity. Qed.

(** The part of a handler that touches the ledger. *)
Lemma ledger_step_files (combine : Z -> Z -> Z) (u amount : Z) (s : State) :
  files (snd ((current_points <- get_user_points u ;;
               update_user_points u (combine current_points amount)) s))
  = match balance u (files s) with
    | Ret c => updated u (combine c amount) (healed (files s))
    | Raise _ => files s
    end.
Proof.
  rewrite bind_unfold.
  destruct (get_user_points_spec u s) as [Hb Hf].
  destruct (get_user_points u s) as [[c|e] s2]; cbn [fst snd] in *;
    rewrite <- Hb.
  - destruct (update_user_points_spec u (combine c amount) s2) as [Hu _].
    now rewrite Hf in Hu.
  - rewrite Hf. unfold balance, healed in *.
    destruct (points_csv (files s)); [reflexivity|discriminate].
Qed.

Ltac caught :=
  unfold except_Exception, emit, raise; cbn [files trace fst snd];
  rewrite <- ?app_assoc; reflexivity.

Lemma adjust_on_reaction_stops (combine : Z -> Z -> Z)
    (report : exn -> Printed) (ev : Reaction.event) (s : State) :
  Reaction.user_bot ev = false ->
  match reaction_points ev (wpt_messages_csv (files s)) with
  | Ret (Some _) => True
  | Ret None =>
      adjust_on_reaction combine report ev s
      = (Ret tt, mkState (files s) (trace s ++ [Open WPT_MESSAGES_FILE "r"]))
  | Raise e =>
      adjust_on_reaction combine report ev s
      = (Ret tt,
         mkState (files s)
           (trace s ++ [Open WPT_MESSAGES_FILE "r"; Print (report e)]))
  end.
Proof.
  intros Hbot. unfold adjust_on_reaction, reaction_points, points_of.
  rewrite Hbot. unfold try_except. rewrite bind_unfold, read_wpt_spec.
  destruct (wpt_rows (wpt_messages_csv (files s))) as [rows|e]; [|caught].
  rewrite bind_unfold. unfold lift.
  destruct (find_message (Reaction.message_id ev) rows) as [[row|]|e];
    cbv beta iota; [|reflexivity|caught].
  rewrite bind_unfold.
  destruct (dict_of_pairs _ _) as [d|e]; cbv beta iota; [|caught].
  destruct (dict_get (Reaction.emoji ev) d) as [text|]; [|reflexivity].
  destruct (py_int text) as [amount|]; [exact I|caught].
Qed.

Lemma adjust_on_reaction_files (combine : Z -> Z -> Z)
    (report : exn -> Printed) (ev : Reaction.event) (s : State) :
  Reaction.user_bot ev = false ->
  files (snd (adjust_on_reaction combine report ev s))
  = adjusted combine ev (files s).
Proof.
  intros Hbot. unfold adjusted.
  pose proof (adjust_on_reaction_stops combine report ev s Hbot) as Hstop.
  destruct (reaction_points ev (wpt_messages_csv (files s)))
    as [[amount|]|e] eqn:Er; [clear Hstop|now rewrite Hstop ..].
  unfold reaction_points, points_of in Er.
  unfold adjust_on_reaction. rewrite Hbot.
  unfold try_except. rewrite bind_unfold, read_wpt_spec.
  destruct (wpt_rows (wpt_messages_csv (files s))) as [rows|e];
    [|discriminate].
  rewrite bind_unfold. unfold lift.
  destruct (find_message (Reaction.message_id ev) rows) as [[row|]|e];
    cbv beta iota; [|discriminate ..].
  rewrite bind_unfold.
  destruct (dict_of_pairs _ _) as [d|e]; cbv beta iota; [|discriminate].
  destruct (dict_get (Reaction.emoji ev) d) as [text|]; [|discriminate].
  destruct (py_int text) as [a|]; [|discriminate]. injection Er as ->.
  set (s1 := mkState (files s) (trace s ++ [Open WPT_MESSAGES_FILE "r"])).
  pose proof (ledger_step_files combine (Reaction.user_id ev) amount s1) as H.
  change (files s1) with (files s) in H.
  destruct ((current_points <- get_user_points (Reaction.user_id ev) ;;
             update_user_points (Reaction.user_id ev)
               (combine current_points amount)) s1) as [[[]|e] s2];
    cbn [snd] in H; [exact H|].
  unfold except_Exception, emit. cbn [snd files]. exact H.
Qed.

Lemma balance_found (u c : Z) (fs : Files) :
  balance u fs = Ret c ->
  exists x, find_points u (ledger_rows (healed fs)) = Ret x.
Proof.
  destruct fs as [p st w]. unfold balance, healed, ledger_rows. cbn.
  destruct p as [rows|]; cbn; [|now eexists].
  destruct (find_points u rows) as [x|e]; [now eexists|discriminate].
Qed.

Lemma wpt_healed (fs : Files) :
  wpt_messages_csv fs <> Absent ->
  wpt_messages_csv (healed fs) = wpt_messages_csv fs.
Proof.
  destruct fs as [p st w]. unfold healed. cbn.
  destruct p; cbn; [reflexivity|]. destruct w; congruence.
Qed.

Lemma wpt_updated (u n : Z) (fs : Files) :
  wpt_messages_csv fs <> Absent ->
  wpt_messages_csv (updated u n fs) = wpt_messages_csv fs.
Proof.
  intros H. unfold updated.
  destruct (updated_rows u n (ledger_rows fs)); [|reflexivity].
  cbn. now apply wpt_healed.
Qed.

Lemma reaction_points_present (ev : Reaction.event) (w : wpt_file)
    (x : option Z) :
  reaction_points ev w = Ret x -> w <> Absent.
Proof. destruct w; [discriminate|discriminate ..]. Qed.

(** Crediting and then debiting the same amount gives the balance back. *)
Lemma adjusted_add_sub (ev : Reaction.event) (fs : Files) :
  balance (Reaction.user_id ev) (adjusted Z.sub ev (adjusted Z.add ev fs))
  = balance (Reaction.user_id ev) fs.
Proof.
  set (u := Reaction.user_id ev).
  unfold adjusted at 2. fold u.
  destruct (reaction_points ev (wpt_messages_csv fs)) as [[p|]|e] eqn:Er;
    try (unfold adjusted; rewrite Er; reflexivity).
  destruct (balance u fs) as [c|e] eqn:Eb.
  2:{ unfold adjusted. rewrite Er. fold u. now rewrite Eb. }
  pose proof (reaction_points_present _ _ _ Er) as Hw.
  destruct (balance_found _ _ _ Eb) as [x Hx].
  destruct (updated_rows_found u (c + p) _ _ Hx) as [rows1 E1].
  pose proof (balance_updated u (c + p) (healed fs) rows1 E1) as Hb1.
  set (fs1 := updated u (c + p) (healed fs)) in *.
  assert (Hw1 : wpt_messages_csv fs1 = wpt_messages_csv fs).
  { unfold fs1. rewrite wpt_updated; rewrite wpt_healed; congruence. }
  unfold adjusted. rewrite Hw1, Er. fold u. rewrite Hb1.
  destruct (balance_found _ _ _ Hb1) as [y Hy].
  destruct (updated_rows_found u (c + p - p) _ _ Hy) as [rows2 E2].
  rewrite (balance_updated u (c + p - p) (healed fs1) rows2 E2).
  f_equal. lia.
Qed.

Lemma adjusted_balance (combine : Z -> Z -> Z) (ev : Reaction.event)
    (fs : Files) (p c : Z) :
  reaction_points ev (wpt_messages_csv fs) = Ret (Some p) ->
  balance (Reaction.user_id ev) fs = Ret c ->
  balance (Reaction.user_id ev) (adjusted combine ev fs) = Ret (combine c p).
Proof.
  intros Hp Hc. unfold adjusted. rewrite Hp, Hc.
  destruct (balance_found _ _ _ Hc) as [x Hx].
  destruct (updated_rows_found (Reaction.user_id ev) (combine c p) _ _ Hx)
    as [rows' E].
  exact (balance_updated _ _ _ _ E).
Qed.

Lemma get_user_points_result (u : Z) (s : State) :
  fst (get_user_points u s) = balance u (files s).
Proof. apply get_user_points_spec. Qed.

(** An event whose emoji the schedule of its message gives [p] points moves
    the balance by [p], up when added and down when removed. *)
Lemma handlers_credit_and_debit (s : State) (ev : Reaction.event) (p c : Z) :
  Reaction.user_bot ev = false ->
  reaction_points ev (wpt_messages_csv (files s)) = Ret (Some p) ->
  fst (get_user_points (Reaction.user_id ev) s) = Ret c ->
  fst (get_user_points (Reaction.user_id ev) (snd (on_reaction_add ev s)))
  = Ret (c + p)
  /\ fst (get_user_points (Reaction.user_id ev)
            (snd (on_reaction_remove ev s)))
     = Ret (c - p).
Proof.
  intros Hbot Hp Hc. rewrite get_user_points_result in Hc.
  rewrite !get_user_points_result.
  rewrite on_reaction_add_shape, on_reaction_remove_shape.
  rewrite !adjust_on_reaction_files by exact Hbot. split.
  - exact (adjusted_balance Z.add ev _ p c Hp Hc).
  - exact (adjusted_balance Z.sub ev _ p c Hp Hc).
Qed.

(** C3: for a user that is no bot, a reaction-added event followed by the
    reaction-removed event of the same user, message and emoji leaves
    [get_user_points] of that user as it was, in every state of the files. *)
Theorem reaction_add_then_remove_net_zero (s : State) (ev : Reaction.event) :
  Reaction.user_bot ev = false ->
  let s1 := snd (on_reaction_add ev s) in
  let s2 := snd (on_reaction_remove ev s1) in
  fst (get_user_points (Reaction.user_id ev) s2)
  = fst (get_user_points (Reaction.user_id ev) s).
Proof.
  intros Hbot s1 s2. subst s1 s2.
  rewrite on_reaction_add_shape, on_reaction_remove_shape.
  destruct (get_user_points_spec (Reaction.user_id ev) s) as [-> _].
  match goal with
  | |- fst (get_user_points ?u ?st) = _ =>
      destruct (get_user_points_spec u st) as [-> _]
  end.
  rewrite !adjust_on_reaction_files by exact Hbot.
  apply adjusted_add_sub.
Qed.

Lemma reaction_add_then_remove_net_zero_witness :
  let s := mkState
             (mkFiles (Some [Ledger.mk "42" "5"]) (Some [])
                (Table [Campaign.mk "1" "1" "2030-01-01T00:00:00" "👍:5"])) [] in
  let ev := Reaction.mk 1 "👍" 42 false in
  fst (get_user_points 42 s) = Ret 5
  /\ fst (get_user_points 42 (snd (on_reaction_add ev s))) = Ret 10
  /\ fst (get_user_points 42
            (snd (on_reaction_remove ev (snd (on_reaction_add ev s)))))
     = Ret 5.
Proof.
  intros s ev. split; [reflexivity|]. split; [reflexivity|].
  exact (eq_trans (reaction_add_then_remove_net_zero s ev eq_refl) eq_refl).
Defined.

(** ** Decoding the schedule of a record *)

Lemma split_without_separator (sep : ascii) (s : string) :
  contains sep s = false -> split sep s = [s].
Proof.
  induction s as [|c r IH]; [reflexivity|]. cbn [contains split].
  intros H. apply orb_false_iff in H. destruct H as [Hc Hr].
  rewrite Hc, (IH Hr). reflexivity.
Qed.

Lemma dict_of_pairs_bad (pairs : list (list string)) :
  Exists (fun l => List.length l <> 2%nat) pairs ->
  forall d, dict_of_pairs pairs d = Raise ValueError.
Proof.
  induction pairs as [|l rest IH]; intros H d; [inversion H|].
  destruct l as [|k [|v [|x l]]]; try reflexivity.
  cbn [dict_of_pairs]. apply IH.
  inversion H as [? ? Hl|? ? Hr]; subst; [cbn in Hl; congruence|exact Hr].
Qed.

Lemma points_of_without_colon (emoji : string) (row : Campaign.row) :
  Exists (fun entry => contains ":" entry = false)
    (split "," (Campaign.emoji_points row)) ->
  points_of emoji row = Raise ValueError.
Proof.
  intros H. unfold points_of. rewrite dict_of_pairs_bad; [reflexivity|].
  apply Exists_exists in H. destruct H as [entry [Hin Hc]].
  apply Exists_exists. exists (split ":" entry). split.
  - apply in_map. exact Hin.
  - rewrite (split_without_separator _ _ Hc). cbn. congruence.
Qed.

(** C6, amended: when a handler reads back a record whose [emoji_points]
    has an entry without a colon, decoding raises and the event is dropped:
    nothing is credited or debited.  A points part that is no integer is
    found only when the emoji of the event selects it, the value being
    converted at use: that event is dropped with the ledger untouched,
    while an event whose emoji selects an integer of the same record is
    credited when added and debited when removed. *)
Theorem malformed_record_drops_event (s : State) (ev : Reaction.event)
    (rows : list Campaign.row) (row : Campaign.row) :
  Reaction.user_bot ev = false ->
  wpt_messages_csv (files s) = Table rows ->
  find_message (Reaction.message_id ev) (map Some rows) = Ret (Some row) ->
  let dropped :=
    on_reaction_add ev s
    = (Ret tt,
       mkState (files s)
         (trace s ++ [Open WPT_MESSAGES_FILE "r";
                      Print (ErrorProcessingReaction ValueError)]))
    /\ on_reaction_remove ev s
       = (Ret tt,
          mkState (files s)
            (trace s ++ [Open WPT_MESSAGES_FILE "r";
                         Print (ErrorProcessingRemoval ValueError)])) in
  (Exists (fun entry => contains ":" entry = false)
     (split "," (Campaign.emoji_points row)) -> dropped)
  /\ (forall d bad text,
        dict_of_pairs
          (map (split ":") (split "," (Campaign.emoji_points row))) [] = Ret d ->
        dict_get bad d = Some text ->
        py_int text = None ->
        (Reaction.emoji ev = bad -> dropped)
        /\ (forall good p c,
              dict_get (Reaction.emoji ev) d = Some good ->
              py_int good = Some p ->
              fst (get_user_points (Reaction.user_id ev) s) = Ret c ->
              fst (get_user_points (Reaction.user_id ev)
                     (snd (on_reaction_add ev s))) = Ret (c + p)
              /\ fst (get_user_points (Reaction.user_id ev)
                        (snd (on_reaction_remove ev s))) = Ret (c - p))).
Proof.
  intros Hbot Hw Hfind dropped.
  assert (Hdrop : reaction_points ev (wpt_messages_csv (files s))
                  = Raise ValueError -> dropped).
  { intros Er. subst dropped.
    rewrite on_reaction_add_shape, on_reaction_remove_shape. split.
    - pose proof (adjust_on_reaction_stops Z.add ErrorProcessingReaction ev s
                    Hbot) as H. now rewrite Er in H.
    - pose proof (adjust_on_reaction_stops Z.sub ErrorProcessingRemoval ev s
                    Hbot) as H. now rewrite Er in H. }
  assert (Er : reaction_points ev (wpt_messages_csv (files s))
               = points_of (Reaction.emoji ev) row).
  { unfold reaction_points. rewrite Hw. cbn [wpt_rows]. now rewrite Hfind. }
  split.
  - intros H. apply Hdrop. rewrite Er. now apply points_of_without_colon.
  - intros d bad text Hd Hg Hi. split.
    + intros E. apply Hdrop. rewrite Er. unfold points_of.
      now rewrite Hd, E, Hg, Hi.
    + intros good p c Hgood Hp Hc.
      apply handlers_credit_and_debit; [exact Hbot| |exact Hc].
      rewrite Er. unfold points_of. now rewrite Hd, Hgood, Hp.
Qed.

Lemma malformed_record_drops_event_witness :
  let row := Campaign.mk "77" "5" "2030-01-01T00:00:00" "a:5,b:x" in
  let torn := Campaign.mk "78" "5" "2030-01-01T00:00:00" "a:5,b" in
  let s := mkState (mkFiles (Some [Ledger.mk "42" "5"]) (Some [])
                      (Table [row; torn])) [] in
  files (snd (on_reaction_add (Reaction.mk 78 "a" 42 false) s)) = files s
  /\ files (snd (on_reaction_add (Reaction.mk 77 "b" 42 false) s)) = files s
  /\ fst (get_user_points 42
            (snd (on_reaction_add (Reaction.mk 77 "a" 42 false) s))) = Ret 10
  /\ fst (get_user_points 42
            (snd (on_reaction_remove (Reaction.mk 77 "a" 42 false) s)))
     = Ret 0.
Proof.
  intros row torn s.
  destruct (malformed_record_drops_event s (Reaction.mk 78 "a" 42 false)
              [row; torn] torn eq_refl eq_refl eq_refl) as [H1 _].
  destruct (malformed_record_drops_event s (Reaction.mk 77 "b" 42 false)
              [row; torn] row eq_refl eq_refl eq_refl) as [_ H2].
  destruct (malformed_record_drops_event s (Reaction.mk 77 "a" 42 false)
              [row; torn] row eq_refl eq_refl eq_refl) as [_ H3].
  destruct (H2 [("a", "5"); ("b", "x")] "b" "x" eq_refl eq_refl eq_refl)
    as [H2' _].
  destruct (H3 [("a", "5"); ("b", "x")] "b" "x" eq_refl eq_refl eq_refl)
    as [_ H3'].
  split.
  - destruct H1 as [-> _]; [|reflexivity]. cbn. right. left. reflexivity.
  - split.
    + destruct (H2' eq_refl) as [-> _]. reflexivity.
    + exact (H3' "5" 5 5 eq_refl eq_refl eq_refl).
Defined.

(** C6, as stated, fails: a points part that is no integer in another entry
    does not stop the handler from crediting the emoji of the event. *)
Lemma non_integer_entry_still_credited :
  let row := Campaign.mk "77" "5" "2030-01-01T00:00:00" "a:5,b:x" in
  let s := mkState (mkFiles (Some []) (Some []) (Table [row])) [] in
  let ev := Reaction.mk 77 "a" 42 false in
  In "b:x" (split "," (Campaign.emoji_points row))
  /\ split ":" "b:x" = ["b"; "x"]
  /\ py_int "x" = None
  /\ fst (get_user_points 42 s) = Ret 0
  /\ fst (get_user_points 42 (snd (on_reaction_add ev s))) = Ret 5
  /\ files (snd (on_reaction_add ev s)) <> files s.
Proof.
  cbv zeta. repeat split; try reflexivity.
  - right. left. reflexivity.
  - discriminate.
Qed.



(** C8 fails on the code: [createwpt] strips the emoji keys, the handlers do
    not.  For ["👍:5, ❤️:10"] the command computes the keys ["👍"] and ["❤️"]
    and attaches both reactions, the handlers decode the keys ["👍"] and
    [" ❤️"], and a reaction with ["❤️"] earns nothing. *)
Theorem handlers_miss_stripped_emoji :
  let text := "👍:5, ❤️:10" in
  let chat := mkPlatform (fun _ _ => Some 77) (fun _ _ => true)
                (fun _ => true) (fun _ _ => true) (fun _ _ => true) in
  let s := mkState (mkFiles (Some []) (Some []) (Table [])) [] in
  let s1 := snd (createwpt py_str (fun t => Ret t) chat 1000 5 "title" "message"
                   text 24 s) in
  let ev := Reaction.mk 77 "❤️" 42 false in
  parse_emoji_points (split "," text) [] = Ret [("👍", 5); ("❤️", 10)]
  /\ dict_of_pairs (map (split ":") (split "," text)) []
     = Ret [("👍", "5"); (" ❤️", "10")]
  /\ In (AddReaction 77 "❤️") (trace s1)
  /\ registry (files s1) = [Campaign.mk "77" "5" "86400001000" text]
  /\ reaction_points ev (wpt_messages_csv (files s1)) = Ret None
  /\ fst (get_user_points 42 (snd (on_reaction_add ev s1))) = Ret 0.
Proof.
  cbv zeta. repeat split; try reflexivity.
  vm_compute. right. right. left. reflexivity.
Qed.

(** ** Campaign creation *)

Lemma parse_emoji_points_bad (entries : list string) :
  Exists malformed entries ->
  forall d, parse_emoji_points entries d = Raise ValueError.
Proof.
  induction entries as [|entry rest IH]; intros H d; [inversion H|].
  cbn [parse_emoji_points].
  destruct (split ":" entry) as [|emoji [|points [|x l]]] eqn:Es;
    try reflexivity.
  destruct (py_int points) as [n|] eqn:En; [|reflexivity].
  apply IH. inversion H as [? ? Hm|? ? Hr]; subst; [|exact Hr].
  destruct Hm as [Hc|[emoji' [points' [Hs Hp]]]].
  - rewrite (split_without_separator _ _ Hc) in Es. discriminate.
  - rewrite Hs in Es. injection Es as -> ->. congruence.
Qed.

Section Creation.

Variable isoformat : Z -> string.
Variable timestamp : Z -> outcome Z.
Variable chat : Platform.

(** A parse failure is the only thing [createwpt] does: the failure is sent
    back and nothing else happens. *)
Lemma createwpt_parse_failure (now channel : Z)
    (title message emoji_points : string) (expiration : Z) (e : exn)
    (s : State) :
  parse_emoji_points (split "," emoji_points) [] = Raise e ->
  createwpt isoformat timestamp chat now channel title message emoji_points
    expiration s
  = (Ret tt,
     mkState (files s) (trace s ++ [SendResponse (ErrorCreatingWpt e)])).
Proof.
  intros H. unfold createwpt, try_except. rewrite bind_unfold.
  unfold lift at 1. rewrite H. reflexivity.
Qed.

(** C4: [createwpt] parses [emoji_points] before it posts or stores
    anything.  ["👍:5,❤️:10"] parses to the mapping of ["👍"] to 5 and
    ["❤️"] to 10; when some entry has no colon or a points part that is no
    integer, the command only reports the error to the invoker: no message
    is sent, no reaction added and the files are untouched. *)
Theorem createwpt_rejects_malformed (now channel : Z)
    (title message emoji_points : string) (expiration : Z) (s : State) :
  Exists malformed (split "," emoji_points) ->
  parse_emoji_points (split "," "👍:5,❤️:10") [] = Ret [("👍", 5); ("❤️", 10)]
  /\ parse_emoji_points (split "," "👍:five") [] = Raise ValueError
  /\ createwpt isoformat timestamp chat now channel title message
       emoji_points expiration s
     = (Ret tt,
        mkState (files s)
          (trace s ++ [SendResponse (ErrorCreatingWpt ValueError)])).
Proof.
  intros H. split; [reflexivity|]. split; [reflexivity|].
  apply createwpt_parse_failure. now apply parse_emoji_points_bad.
Qed.

End Creation.

Lemma createwpt_rejects_malformed_witness :
  let chat := mkPlatform (fun _ _ => Some 77) (fun _ _ => true)
                (fun _ => true) (fun _ _ => true) (fun _ _ => true) in
  let s := mkState (mkFiles (Some []) (Some []) (Table [])) [] in
  createwpt py_str (fun t => Ret t) chat 1000 5 "title" "message" "👍:five" 24 s
  = (Ret tt,
     mkState (mkFiles (Some []) (Some []) (Table []))
       [SendResponse (ErrorCreatingWpt ValueError)]).
Proof.
  intros chat s.
  refine (proj2 (proj2 (createwpt_rejects_malformed py_str (fun t => Ret t) chat
                          1000 5 "title" "message" "👍:five" 24 s _))).
  left. right. exists "👍", "five". split; reflexivity.
Defined.

(** ** The role check *)

Lemma get_setting_spec (key : string) (s : State) :
  fst (get_setting key s) = Ret (stored_setting key (files s)).
Proof.
  destruct s as [[p st w] t]. unfold stored_setting. cbn [files settings_csv].
  destruct st as [rows|]; [reflexivity|].
  destruct p, w; reflexivity.
Qed.

Lemma predicate_spec (interaction : Interaction) (s : State) :
  fst (predicate interaction s)
  = match stored_setting "required_role" (files s) with
    | None => Ret true
    | Some "" => Ret true
    | Some text =>
        match py_int text with
        | None => Ret false
        | Some required_role_id =>
            match roles interaction with
            | None => Ret false
            | Some user_roles =>
                Ret (existsb (fun role => role =? required_role_id) user_roles)
            end
        end
    end.
Proof.
  unfold predicate. rewrite bind_unfold.
  pose proof (get_setting_spec "required_role" s) as H.
  destruct (get_setting "required_role" s) as [[o|e] s1]; cbn [fst] in H;
    [|discriminate].
  injection H as <-.
  destruct o as [[|c text]|]; try reflexivity.
  unfold try_except.
  destruct (py_int (String c text)); [|reflexivity].
  destruct (roles interaction); reflexivity.
Qed.

Lemma has_required_role_spec {A : Type} (interaction : Interaction)
    (command : M A) (s : State) (ok : bool) :
  fst (predicate interaction s) = Ret ok ->
  has_required_role interaction command s
  = if ok then (a <- command ;; ret (Some a)) (snd (predicate interaction s))
    else (Ret None, snd (predicate interaction s)).
Proof.
  intros H. unfold has_required_role. rewrite bind_unfold.
  destruct (predicate interaction s) as [[b|e] s1]; cbn [fst snd] in *;
    [|discriminate].
  injection H as ->. destruct ok; reflexivity.
Qed.

(** C9, amended: while no ['required_role'] is stored the check holds for
    every invoker, so that the commands under it run for anyone; when the
    stored value is not empty and no integer the check fails for every
    invoker and the commands do not run.  (An empty stored value counts as
    none.) *)
Theorem role_check_without_valid_role (s : State) (interaction : Interaction)
    (A : Type) (command : M A) :
  (stored_setting "required_role" (files s) = None ->
   fst (predicate interaction s) = Ret true
   /\ has_required_role interaction command s
      = (a <- command ;; ret (Some a)) (snd (predicate interaction s)))
  /\ (forall text,
        stored_setting "required_role" (files s) = Some text ->
        text <> "" -> py_int text = None ->
        fst (predicate interaction s) = Ret false
        /\ has_required_role interaction command s
           = (Ret None, snd (predicate interaction s))).
Proof.
  split.
  - intros H.
    assert (Hp : fst (predicate interaction s) = Ret true)
      by (rewrite predicate_spec, H; reflexivity).
    split; [exact Hp|]. exact (has_required_role_spec _ _ _ _ Hp).
  - intros text H Hne Hi.
    assert (Hp : fst (predicate interaction s) = Ret false).
    { rewrite predicate_spec, H. destruct text as [|c text]; [congruence|].
      now rewrite Hi. }
    split; [exact Hp|]. exact (has_required_role_spec _ _ _ _ Hp).
Qed.

Lemma role_check_without_valid_role_witness :
  let unset := mkState (mkFiles (Some []) (Some [Setting.mk "reason_channel" "9"])
                          (Table [])) [] in
  let broken := mkState (mkFiles (Some []) (Some [Setting.mk "required_role" "admin"])
                           (Table [])) [] in
  let anyone := mkInteraction (Some []) in
  fst (predicate anyone unset) = Ret true
  /\ fst (has_required_role anyone (update_user_points 42 5) unset)
     = Ret (Some tt)
  /\ fst (predicate anyone broken) = Ret false
  /\ fst (has_required_role anyone (update_user_points 42 5) broken) = Ret None.
Proof.
  intros unset broken anyone.
  destruct (role_check_without_valid_role unset anyone unit
              (update_user_points 42 5)) as [H1 _].
  destruct (role_check_without_valid_role broken anyone unit
              (update_user_points 42 5)) as [_ H2].
  destruct (H1 eq_refl) as [Ha Hb].
  destruct (H2 "admin" eq_refl ltac:(discriminate) eq_refl) as [Hc Hd].
  split; [exact Ha|]. split; [rewrite Hb; reflexivity|].
  split; [exact Hc|]. rewrite Hd. reflexivity.
Defined.

(** C9, as stated, fails: the empty string is no integer, yet with it
    stored the check holds for every invoker. *)
Lemma empty_required_role_admits_everyone :
  let s := mkState (mkFiles (Some []) (Some [Setting.mk "required_role" ""])
                      (Table [])) [] in
  stored_setting "required_role" (files s) = Some ""
  /\ py_int "" = None
  /\ fst (predicate (mkInteraction (Some [])) s) = Ret true
  /\ fst (predicate (mkInteraction None) s) = Ret true.
Proof. cbv zeta. repeat split; reflexivity. Qed.

(** ** The sweeper *)

Section SweepProofs.

Variable fromisoformat : string -> parsed_datetime.
Variable chat : Platform.

Lemma partition_rows_spec (now : Z) (rows : list Campaign.row) :
  Forall (well_formed fromisoformat) rows ->
  forall expired_messages active_messages,
    partition_rows fromisoformat now (map Some rows) expired_messages
      active_messages
    = Ret ((expired_messages
              ++ map row_ids (filter (expired_at fromisoformat now) rows))%list,
           (active_messages
              ++ filter (still_active fromisoformat now) rows)%list).
Proof.
  induction 1 as [|row rest Hrow Hrest IH]; intros ex act.
  - cbn. now rewrite !app_nil_r.
  - destruct Hrow as ([t Ht] & [m Hm] & [c Hc]).
    cbn [map partition_rows filter]. unfold still_active, expired_at.
    rewrite Ht. destruct (t <=? now); cbn [negb].
    + rewrite Hm, Hc, IH. cbn [map]. unfold row_ids at 2. rewrite Hm, Hc.
      now rewrite <- app_assoc.
    + rewrite IH. now rewrite <- app_assoc.
Qed.

Lemma delete_message_caught (message_id channel_id : Z) (s : State) :
  try_except (delete_message chat message_id channel_id)
    (except_Exception (fun _ => ret tt)) s
  = (Ret tt,
     mkState (files s)
       (trace s ++ deletion_trace chat (message_id, channel_id))%list).
Proof.
  unfold try_except, delete_message, deletion_trace, bind, emit, ret, raise,
    except_Exception.
  cbn [files trace].
  destruct (fetch_channel_ok chat channel_id); cbn [files trace];
    [|reflexivity].
  destruct (fetch_message_ok chat channel_id message_id); cbn [files trace];
    [|now rewrite <- app_assoc].
  destruct (delete_ok chat channel_id message_id); cbn [files trace];
    now rewrite <- !app_assoc.
Qed.

Lemma delete_expired_spec (expired_messages : list (Z * Z)) :
  forall s,
    delete_expired chat expired_messages s
    = (Ret tt,
       mkState (files s)
         (trace s ++ flat_map (deletion_trace chat) expired_messages)%list).
Proof.
  induction expired_messages as [|[m c] rest IH]; intros s.
  - cbn. rewrite app_nil_r. now destruct s.
  - cbn [delete_expired flat_map]. rewrite bind_unfold, delete_message_caught.
    rewrite IH. cbn [files trace]. now rewrite <- app_assoc.
Qed.

(** The files after a sweep: they do not depend on the platform. *)
Lemma check_expirations_files (now : Z) (s : State) :
  files (snd (check_expirations fromisoformat chat now s))
  = match wpt_rows (wpt_messages_csv (files s)) with
    | Ret rows =>
        match partition_rows fromisoformat now rows [] [] with
        | Ret parts =>
            mkFiles (points_csv (files s)) (settings_csv (files s))
              (Table (snd parts))
        | Raise _ => files s
        end
    | Raise _ => files s
    end.
Proof.
  unfold check_expirations, try_except. rewrite bind_unfold, read_wpt_spec.
  destruct (wpt_rows (wpt_messages_csv (files s))) as [rows|e];
    [|reflexivity].
  rewrite bind_unfold. unfold lift.
  destruct (partition_rows fromisoformat now rows [] []) as [parts|e];
    [|reflexivity].
  rewrite bind_unfold, delete_expired_spec. reflexivity.
Qed.

Lemma check_expirations_spec (now : Z) (s : State)
    (rows : list Campaign.row) :
  wpt_messages_csv (files s) = Table rows ->
  Forall (well_formed fromisoformat) rows ->
  check_expirations fromisoformat chat now s
  = (Ret tt,
     mkState
       (mkFiles (points_csv (files s)) (settings_csv (files s))
          (Table (filter (still_active fromisoformat now) rows)))
       (trace s
        ++ Open WPT_MESSAGES_FILE "r"
           :: flat_map (deletion_trace chat)
                (map row_ids (filter (expired_at fromisoformat now) rows))
        ++ [Open WPT_MESSAGES_FILE "w"])%list).
Proof.
  intros Hw Hrows.
  unfold check_expirations, try_except. rewrite bind_unfold, read_wpt_spec.
  rewrite Hw. cbn [wpt_rows]. rewrite bind_unfold. unfold lift.
  rewrite (partition_rows_spec now rows Hrows). cbn [app fst snd].
  rewrite bind_unfold, delete_expired_spec.
  unfold write_wpt, bind, emit, get_files, put_files. cbn [files trace].
  rewrite <- !app_assoc. reflexivity.
Qed.

End SweepProofs.

Lemma expired_at_iff (fromisoformat : string -> parsed_datetime) (now T : Z)
    (row : Campaign.row) :
  fromisoformat (Campaign.expiration row) = Naive T ->
  expired_at fromisoformat now row = true <-> now >= T.
Proof.
  intros H. unfold expired_at. rewrite H. rewrite Z.leb_le. lia.
Qed.

(** C1: on a registry of well-formed records, a sweep at time [now] lists
    for deletion exactly the records whose expiration [T] has [now >= T],
    and rewrites the registry to exactly the records with [T > now], in
    their order: a listed record is absent afterwards, the others stay. *)
Theorem sweep_partitions_by_expiration
    (fromisoformat : string -> parsed_datetime) (chat : Platform) (now : Z)
    (s : State) (rows : list Campaign.row) :
  wpt_messages_csv (files s) = Table rows ->
  Forall (well_formed fromisoformat) rows ->
  let expired_rows := filter (expired_at fromisoformat now) rows in
  let s' := snd (check_expirations fromisoformat chat now s) in
  partition_rows fromisoformat now (map Some rows) [] []
  = Ret (map row_ids expired_rows, filter (still_active fromisoformat now) rows)
  /\ registry (files s') = filter (still_active fromisoformat now) rows
  /\ (forall ids, In ids (map row_ids expired_rows) <->
                  exists row, In row rows /\ row_ids row = ids
                              /\ expired_at fromisoformat now row = true)
  /\ (forall row T,
        In row rows -> fromisoformat (Campaign.expiration row) = Naive T ->
        (In row expired_rows <-> now >= T)
        /\ (now >= T -> In (row_ids row) (map row_ids expired_rows)
                        /\ ~ In row (registry (files s')))
        /\ (In row (registry (files s')) <-> T > now)).
Proof.
  intros Hw Hrows expired_rows s'. subst expired_rows s'.
  rewrite (check_expirations_spec fromisoformat chat now s rows Hw Hrows).
  cbn [snd files]. unfold registry. cbn [wpt_messages_csv].
  split; [exact (partition_rows_spec fromisoformat now rows Hrows [] [])|].
  split; [reflexivity|]. split.
  - intros ids. rewrite in_map_iff. split.
    + intros [row [Hid Hin]]. apply filter_In in Hin. destruct Hin as [Hin He].
      exists row. auto.
    + intros [row [Hin [Hid He]]]. exists row. split; [exact Hid|].
      apply filter_In. auto.
  - intros row T Hin HT.
    pose proof (expired_at_iff fromisoformat now T row HT) as Hiff.
    rewrite !filter_In. unfold still_active.
    split; [tauto|]. split.
    + intros Hge. apply Hiff in Hge. split.
      * apply in_map. apply filter_In. auto.
      * rewrite Hge. cbn. intros [_ H]. discriminate.
    + destruct (expired_at fromisoformat now row) eqn:E; cbn [negb].
      * assert (now >= T) by now apply Hiff. split; [intros [_ H']|]; [discriminate|lia].
      * split; [|tauto]. intros _.
        destruct (Z_gt_le_dec T now) as [Hgt|Hle]; [exact Hgt|].
        assert (false = true) by (apply Hiff; lia). discriminate.
Qed.

Lemma sweep_partitions_by_expiration_witness :
  let old := Campaign.mk "1" "10" "2024-01-01T00:00:00" "👍:5" in
  let new := Campaign.mk "2" "10" "2030-01-01T00:00:00" "👍:5" in
  let chat := mkPlatform (fun _ _ => Some 77) (fun _ _ => true)
                (fun _ => true) (fun _ _ => true) (fun _ _ => true) in
  let s := mkState (mkFiles (Some []) (Some []) (Table [old; new])) [] in
  let now := 63884376000000000 in
  partition_rows sample_fromisoformat now [Some old; Some new] [] []
  = Ret ([(1, 10)], [new])
  /\ registry (files (snd (check_expirations sample_fromisoformat chat now s)))
     = [new].
Proof.
  intros old new chat s now.
  assert (Hwf : Forall (well_formed sample_fromisoformat) [old; new]).
  { repeat constructor; cbn; eexists; reflexivity. }
  destruct (sweep_partitions_by_expiration sample_fromisoformat chat now s
              [old; new] eq_refl Hwf) as (H1 & H2 & _).
  split; [exact H1|exact H2].
Defined.

(** C5: in one sweep every expired record leaves the registry whatever the
    platform answers to the deletion of its message: each expired message
    has its deletion attempted, a failure of one attempt stops neither the
    attempts after it nor the pruning, and the files after the sweep are the
    same for every platform. *)
Theorem sweep_prunes_whatever_deletion_does
    (fromisoformat : string -> parsed_datetime) (chat : Platform) (now : Z)
    (s : State) (rows : list Campaign.row) :
  wpt_messages_csv (files s) = Table rows ->
  Forall (well_formed fromisoformat) rows ->
  let s' := snd (check_expirations fromisoformat chat now s) in
  fst (check_expirations fromisoformat chat now s) = Ret tt
  /\ registry (files s') = filter (still_active fromisoformat now) rows
  /\ (forall row,
        In row rows -> expired_at fromisoformat now row = true ->
        ~ In row (registry (files s'))
        /\ In (FetchChannel (snd (row_ids row))) (trace s'))
  /\ (forall chat',
        files (snd (check_expirations fromisoformat chat' now s)) = files s').
Proof.
  intros Hw Hrows s'. subst s'.
  rewrite (check_expirations_spec fromisoformat chat now s rows Hw Hrows).
  cbn [fst snd files trace]. unfold registry. cbn [wpt_messages_csv].
  split; [reflexivity|]. split; [reflexivity|]. split.
  - intros row Hin He. split.
    + rewrite filter_In. unfold still_active. rewrite He. cbn.
      intros [_ H]. discriminate.
    + apply in_or_app. right. right. apply in_or_app. left.
      apply in_flat_map. exists (row_ids row). split.
      * apply in_map. apply filter_In. auto.
      * unfold deletion_trace. destruct (row_ids row) as [m c]. left.
        reflexivity.
  - intros chat'.
    now rewrite (check_expirations_spec fromisoformat chat' now s rows Hw Hrows).
Qed.

Lemma sweep_prunes_whatever_deletion_does_witness :
  let old := Campaign.mk "1" "10" "2024-01-01T00:00:00" "👍:5" in
  let older := Campaign.mk "3" "11" "2024-01-01T00:00:00" "👍:5" in
  let new := Campaign.mk "2" "10" "2030-01-01T00:00:00" "👍:5" in
  let failing := mkPlatform (fun _ _ => None) (fun _ _ => false)
                   (fun _ => false) (fun _ _ => false) (fun _ _ => false) in
  let s := mkState (mkFiles (Some []) (Some []) (Table [old; new; older])) [] in
  let now := 63884376000000000 in
  let s' := snd (check_expirations sample_fromisoformat failing now s) in
  fst (check_expirations sample_fromisoformat failing now s) = Ret tt
  /\ registry (files s') = [new]
  /\ ~ In older (registry (files s'))
  /\ In (FetchChannel 11) (trace s').
Proof.
  intros old older new failing s now s'.
  assert (Hwf : Forall (well_formed sample_fromisoformat) [old; new; older]).
  { repeat constructor; cbn; eexists; reflexivity. }
  destruct (sweep_prunes_whatever_deletion_does sample_fromisoformat failing
              now s [old; new; older] eq_refl Hwf) as (H1 & H2 & H3 & _).
  destruct (H3 older ltac:(right; right; left; reflexivity) eq_refl)
    as [H4 H5].
  split; [exact H1|]. split; [exact H2|]. split; [exact H4|exact H5].
Defined.

(** ** The settings store *)

Lemma find_setting_upserted (key value k : string) (rows : list Setting.row) :
  find_setting k (upserted key value rows)
  = if String.eqb key k then Some value else find_setting k rows.
Proof.
  unfold upserted. induction rows as [|row rest IH].
  - cbn. destruct (String.eqb key k); reflexivity.
  - cbn [set_value]. destruct (String.eqb (Setting.key row) key) eqn:E.
    + cbn. apply String.eqb_eq in E. rewrite E.
      destruct (String.eqb key k); reflexivity.
    + cbn [fst snd] in *.
      destruct (snd (set_value key value rest)); cbn [app find_setting];
        rewrite IH; destruct (String.eqb (Setting.key row) k) eqn:Ek;
        try reflexivity;
        apply String.eqb_eq in Ek; rewrite Ek, String.eqb_sym in E;
        now rewrite E.
Qed.

Lemma set_setting_rec_spec (d : nat) (key value : string) (s : State) :
  fst (set_setting_rec (S d) key value s) = Ret tt
  /\ files (snd (set_setting_rec (S d) key value s))
     = with_setting key value (files s).
Proof.
  destruct s as [[p st w] t].
  unfold with_setting, settings_rows. cbn [files settings_csv].
  destruct st as [rows|].
  - destruct d; split; reflexivity.
  - destruct d; destruct p, w; split; reflexivity.
Qed.

Lemma set_setting_spec (key value : string) (s : State) :
  fst (set_setting key value s) = Ret tt
  /\ files (snd (set_setting key value s)) = with_setting key value (files s).
Proof. apply (set_setting_rec_spec 999). Qed.

Lemma stored_with_setting (key value k : string) (fs : Files) :
  stored_setting k (with_setting key value fs)
  = if String.eqb key k then Some value else stored_setting k fs.
Proof.
  unfold stored_setting, with_setting, settings_rows. cbn [settings_csv].
  rewrite find_setting_upserted. destruct (settings_csv fs); reflexivity.
Qed.

(** X1: [set_setting(key, value)] returns normally in every state of the
    files, and [get_setting(key)] then returns [value]; for every other key
    [get_setting] returns what it returned before. *)
Theorem set_setting_then_get (s : State) (key value other : string) :
  let s' := snd (set_setting key value s) in
  fst (set_setting key value s) = Ret tt
  /\ fst (get_setting key s') = Ret (Some value)
  /\ (other <> key -> fst (get_setting other s') = fst (get_setting other s)).
Proof.
  intros s'. subst s'. destruct (set_setting_spec key value s) as [Hr Hf].
  split; [exact Hr|]. rewrite !get_setting_spec, Hf, !stored_with_setting.
  rewrite String.eqb_refl. split; [reflexivity|].
  intros Hne. destruct (String.eqb key other) eqn:E; [|reflexivity].
  apply String.eqb_eq in E. congruence.
Qed.

Lemma set_setting_then_get_witness :
  let s := mkState (mkFiles (Some []) (Some [Setting.mk "reason_channel" "9"])
                      (Table [])) [] in
  let s' := snd (set_setting "required_role" "7" s) in
  fst (get_setting "required_role" s') = Ret (Some "7")
  /\ fst (get_setting "reason_channel" s') = Ret (Some "9").
Proof.
  intros s s'.
  destruct (set_setting_then_get s "required_role" "7" "reason_channel")
    as (_ & H1 & H2).
  split; [exact H1|]. exact (eq_trans (H2 ltac:(discriminate)) eq_refl).
Defined.

Lemma set_value_keys (key value : string) (rows : list Setting.row) :
  map Setting.key (fst (set_value key value rows)) = map Setting.key rows
  /\ List.length (fst (set_value key value rows)) = List.length rows
  /\ (snd (set_value key value rows) = true <-> In key (map Setting.key rows)).
Proof.
  induction rows as [|row rest (IH1 & IH2 & IH3)].
  - cbn. split; [reflexivity|]. split; [reflexivity|].
    split; [discriminate|intros []].
  - cbn [set_value]. destruct (String.eqb (Setting.key row) key) eqn:E;
      cbn [fst snd map List.length Setting.key].
    + apply String.eqb_eq in E. split; [reflexivity|]. split; [reflexivity|].
      split; [intros _; now left|reflexivity].
    + rewrite IH1, IH2, IH3. split; [reflexivity|]. split; [reflexivity|].
      split; [intros H; now right|].
      intros [H|H]; [|exact H]. apply String.eqb_neq in E. congruence.
Qed.

(** X2: [set_setting] keeps one row per key: an existing key has its row
    rewritten in place, so that the number of rows is unchanged; a new key
    adds one row at the end; keys that were pairwise different stay so. *)
Theorem set_setting_upserts (s : State) (key value : string) :
  let rows := settings_rows (files s) in
  let rows' := settings_rows (files (snd (set_setting key value s))) in
  (In key (map Setting.key rows) ->
   map Setting.key rows' = map Setting.key rows)
  /\ (~ In key (map Setting.key rows) ->
      rows' = (rows ++ [Setting.mk key value])%list)
  /\ (NoDup (map Setting.key rows) -> NoDup (map Setting.key rows')).
Proof.
  intros rows rows'. subst rows rows'.
  destruct (set_setting_spec key value s) as [_ ->].
  change (settings_rows (with_setting key value (files s)))
    with (upserted key value (settings_rows (files s))).
  set (rows := settings_rows (files s)). unfold upserted.
  destruct (set_value_keys key value rows) as (H1 & H2 & H3).
  destruct (snd (set_value key value rows)) eqn:E.
  - assert (Hin : In key (map Setting.key rows)) by now apply H3.
    rewrite H1. split; [reflexivity|]. split; [contradiction|tauto].
  - assert (Hnin : ~ In key (map Setting.key rows)).
    { intros H. apply H3 in H. discriminate. }
    assert (Hsame : fst (set_value key value rows) = rows).
    { clear H1 H2 H3 Hnin. induction rows as [|row rest IH]; [reflexivity|].
      cbn [set_value] in *. destruct (String.eqb (Setting.key row) key);
        [discriminate|]. cbn [fst snd] in *. now rewrite IH. }
    rewrite Hsame. split; [contradiction|]. split; [reflexivity|].
    intros Hnd. rewrite map_app. cbn [map Setting.key].
    apply NoDup_app; [exact Hnd|repeat constructor; intros []|].
    intros x Hx [<-|[]]. contradiction.
Qed.

Lemma set_setting_upserts_witness :
  let s := mkState (mkFiles (Some [])
                      (Some [Setting.mk "required_role" "7";
                             Setting.mk "reason_channel" "9"])
                      (Table [])) [] in
  settings_rows (files (snd (set_setting "required_role" "8" s)))
  = [Setting.mk "required_role" "8"; Setting.mk "reason_channel" "9"]
  /\ NoDup (map Setting.key
              (settings_rows (files (snd (set_setting "required_role" "8" s))))).
Proof.
  intros s. split; [reflexivity|].
  refine (proj2 (proj2 (set_setting_upserts s "required_role" "8")) _).
  cbn. repeat constructor; cbn; intuition discriminate.
Defined.

Lemma set_all_spec (key : string) (calls : list (string * string)) :
  forall s,
    fst (set_all calls s) = Ret tt
    /\ stored_setting key (files (snd (set_all calls s)))
       = match last_setting key calls with
         | Some value => Some value
         | None => stored_setting key (files s)
         end.
Proof.
  induction calls as [|[k v] rest IH]; intros s; [now split|].
  cbn [set_all last_setting]. rewrite bind_unfold.
  destruct (set_setting_spec k v s) as [Hr Hf].
  destruct (set_setting k v s) as [[[]|e] s1]; cbn [fst snd] in *;
    [|discriminate].
  destruct (IH s1) as [IHr IHf]. split; [exact IHr|]. rewrite IHf.
  destruct (last_setting key rest); [reflexivity|].
  rewrite Hf, stored_with_setting. destruct (String.eqb k key); reflexivity.
Qed.

(** X3: after any sequence of [set_setting] calls, made in any state of the
    files, [get_setting(key)] returns the value of the most recent call for
    [key], and what it returned before when no call was for [key]. *)
Theorem get_setting_after_sets (s : State) (calls : list (string * string))
    (key : string) :
  fst (set_all calls s) = Ret tt
  /\ fst (get_setting key (snd (set_all calls s)))
     = match last_setting key calls with
       | Some value => Ret (Some value)
       | None => fst (get_setting key s)
       end.
Proof.
  destruct (set_all_spec key calls s) as [Hr Hf]. split; [exact Hr|].
  rewrite !get_setting_spec, Hf. destruct (last_setting key calls); reflexivity.
Qed.

(** ** Creating the files *)

(** X4: [ensure_csv_files] returns normally and creates what is missing and
    nothing else: a file that exists keeps its content and is not opened,
    a missing one is created with no rows, afterwards the three files
    exist, and a second run opens no file and changes nothing. *)
Theorem ensure_csv_files_creates_missing_only (s : State) :
  let s' := snd (ensure_csv_files s) in
  fst (ensure_csv_files s) = Ret tt
  /\ points_csv (files s')
     = Some (ledger_rows (files s))
  /\ settings_csv (files s') = Some (settings_rows (files s))
  /\ wpt_messages_csv (files s')
     = match wpt_messages_csv (files s) with
       | Absent => Table []
       | present => present
       end
  /\ trace s' = (trace s ++ created (files s))%list
  /\ ensure_csv_files s' = (Ret tt, s').
Proof.
  destruct s as [[p st w] t].
  destruct p, st, w; cbn; rewrite <- ?app_assoc, ?app_nil_r;
    repeat split; reflexivity.
Qed.

(** ** The role check after [setrole] *)

Lemma py_str_not_empty (n : Z) : py_str n <> "".
Proof.
  intros H. pose proof (py_int_py_str n) as Hn. rewrite H in Hn. discriminate.
Qed.

(** X5: [setrole(role)] returns normally in every state of the files, and
    from then on the role check holds exactly for the invokers that have
    the role; an invoker without roles is refused. *)
Theorem setrole_then_predicate (s : State) (role : Z)
    (interaction : Interaction) :
  let s' := snd (setrole role s) in
  fst (setrole role s) = Ret (RequiredRoleSet role)
  /\ fst (predicate interaction s')
     = Ret match roles interaction with
           | Some user_roles => existsb (fun r => r =? role) user_roles
           | None => false
           end.
Proof.
  intros s'. subst s'. unfold setrole, try_except. rewrite bind_unfold.
  destruct (set_setting_spec "required_role" (py_str role) s) as [Hr Hf].
  destruct (set_setting "required_role" (py_str role) s) as [[[]|e] s1];
    cbn [fst snd] in *; [|discriminate].
  unfold ret. cbn [fst snd]. split; [reflexivity|].
  rewrite predicate_spec, Hf, stored_with_setting, String.eqb_refl.
  pose proof (py_str_not_empty role) as Hne.
  destruct (py_str role) as [|c text] eqn:E; [congruence|].
  rewrite <- E, py_int_py_str. destruct (roles interaction); reflexivity.
Qed.

(** ** [pointset] *)

Lemma get_setting_full (key : string) (s : State) :
  fst (get_setting key s) = Ret (stored_setting key (files s))
  /\ files (snd (get_setting key s)) = settings_healed (files s).
Proof.
  destruct s as [[p st w] t].
  unfold stored_setting, settings_healed. cbn [files settings_csv].
  destruct st as [rows|]; [split; reflexivity|].
  destruct p, w; split; reflexivity.
Qed.

Lemma stored_healed (key : string) (fs : Files) :
  stored_setting key (healed fs) = stored_setting key fs.
Proof.
  destruct fs as [p st w]. unfold stored_setting, healed. cbn.
  destruct p; cbn; [reflexivity|]. destruct st; reflexivity.
Qed.

Lemma stored_updated (key : string) (u n : Z) (fs : Files) :
  stored_setting key (updated u n fs) = stored_setting key fs.
Proof.
  unfold updated. destruct (updated_rows u n (ledger_rows fs)); [|reflexivity].
  change (stored_setting key (healed fs) = stored_setting key fs).
  apply stored_healed.
Qed.

Lemma pointset_spec (log : AuditLog) (moderator u value : Z)
    (reason : string) (s : State) :
  match balance u (files s) with
  | Raise e =>
      fst (pointset log moderator u value reason s)
      = Ret [ErrorAdjustingPoints e]
      /\ files (snd (pointset log moderator u value reason s)) = files s
  | Ret c =>
      fst (pointset log moderator u value reason s)
      = Ret match logged_messages log
                    (stored_setting "reason_channel" (files s))
                    moderator u value (c + value) reason with
            | Ret l => (l ++ [PointsUpdated u c (c + value)])%list
            | Raise e => [ErrorAdjustingPoints e]
            end
      /\ files (snd (pointset log moderator u value reason s))
         = settings_healed (updated u (c + value) (healed (files s)))
  end.
Proof.
  unfold pointset, try_except. rewrite bind_unfold.
  destruct (get_user_points_spec u s) as [Hb Hf].
  destruct (get_user_points u s) as [[c|e] s1]; cbn [fst snd] in *;
    rewrite <- Hb.
  2:{ unfold except_Exception, ret. cbn [fst snd]. split; [reflexivity|].
      rewrite Hf. unfold balance, healed in *.
      destruct (points_csv (files s)); [reflexivity|discriminate]. }
  cbv zeta. rewrite bind_unfold.
  destruct (update_user_points_spec u (c + value) s1) as [Hu Hr].
  rewrite Hf in Hu, Hr.
  destruct (balance_found _ _ _ (eq_sym Hb)) as [x Hx].
  destruct (updated_rows_found u (c + value) _ _ Hx) as [rows' E].
  rewrite E in Hr.
  destruct (update_user_points u (c + value) s1) as [[[]|e] s2];
    cbn [fst snd] in *; [|discriminate].
  rewrite bind_unfold.
  destruct (get_setting_full "reason_channel" s2) as [Hg Hs].
  rewrite Hu in Hg, Hs. rewrite stored_updated, stored_healed in Hg.
  destruct (get_setting "reason_channel" s2) as [[o|e] s3];
    cbn [fst snd] in *; [|discriminate].
  injection Hg as ->. rewrite bind_unfold.
  unfold logged_messages.
  destruct (stored_setting "reason_channel" (files s)) as [[|ch text]|];
    unfold ret, except_Exception; cbn [fst snd]; try (split; [reflexivity|exact Hs]).
  unfold try_except.
  destruct (py_int (String ch text)) as [channel|]; unfold raise.
  - destruct (log_fetch_ok log channel && log_send_ok log channel);
      cbn [fst snd]; [split; [reflexivity|exact Hs]|].
    destruct (followup_ok log); cbn [fst snd]; split;
      try reflexivity; exact Hs.
  - destruct (followup_ok log); cbn [fst snd]; split;
      try reflexivity; exact Hs.
Qed.

Lemma balance_settings_healed (u : Z) (fs : Files) :
  balance u (settings_healed fs) = balance u fs.
Proof.
  destruct fs as [p st w]. unfold balance, settings_healed. cbn.
  destruct st; cbn; [reflexivity|]. destruct p; reflexivity.
Qed.

Lemma registry_healed (fs : Files) : registry (healed fs) = registry fs.
Proof.
  destruct fs as [p st w]. unfold registry, healed. cbn.
  destruct p; cbn; [reflexivity|]. destruct w; reflexivity.
Qed.

Lemma registry_settings_healed (fs : Files) :
  registry (settings_healed fs) = registry fs.
Proof.
  destruct fs as [p st w]. unfold registry, settings_healed. cbn.
  destruct st; cbn; [reflexivity|]. destruct w; reflexivity.
Qed.

Lemma registry_updated (u n : Z) (fs : Files) :
  registry (updated u n fs) = registry fs.
Proof.
  unfold updated. destruct (updated_rows u n (ledger_rows fs)); [|reflexivity].
  change (registry (healed fs) = registry fs). apply registry_healed.
Qed.

Lemma points_spec (u : Z) (s : State) :
  fst (points u s)
  = Ret match balance u (files s) with
        | Ret c => YouHavePoints c
        | Raise e => ErrorRetrievingPoints e
        end.
Proof.
  unfold points, try_except. rewrite bind_unfold.
  destruct (get_user_points_spec u s) as [Hb _].
  destruct (get_user_points u s) as [[c|e] s1]; cbn [fst] in Hb; rewrite <- Hb;
    reflexivity.
Qed.

(** X6: when the balance of [user] reads as [c], [pointset] with [value]
    leaves it at [c + value], whatever is stored as reason channel and
    whatever the platform does with the log line; [points] then reports
    [c + value]; the balance of every other user and the registry are as
    before. *)
Theorem pointset_adjusts_balance (log : AuditLog) (moderator user value : Z)
    (reason : string) (s : State) (c : Z) :
  fst (get_user_points user s) = Ret c ->
  let s' := snd (pointset log moderator user value reason s) in
  fst (get_user_points user s') = Ret (c + value)
  /\ fst (points user s') = Ret (YouHavePoints (c + value))
  /\ (forall other, other <> user ->
        fst (get_user_points other s') = fst (get_user_points other s))
  /\ registry (files s') = registry (files s).
Proof.
  intros Hc s'. subst s'.
  destruct (get_user_points_spec user s) as [Hb _]. rewrite Hb in Hc.
  pose proof (pointset_spec log moderator user value reason s) as H.
  rewrite Hc in H. destruct H as [_ Hf].
  destruct (balance_found _ _ _ Hc) as [x Hx].
  destruct (updated_rows_found user (c + value) _ _ Hx) as [rows' E].
  assert (Hnew : balance user
                   (files (snd (pointset log moderator user value reason s)))
                 = Ret (c + value)).
  { rewrite Hf, balance_settings_healed. exact (balance_updated _ _ _ _ E). }
  split; [|split; [|split]].
  - destruct (get_user_points_spec user
                (snd (pointset log moderator user value reason s))) as [-> _].
    exact Hnew.
  - rewrite points_spec, Hnew. reflexivity.
  - intros other Hne.
    destruct (get_user_points_spec other
                (snd (pointset log moderator user value reason s))) as [-> _].
    destruct (get_user_points_spec other s) as [-> _].
    rewrite Hf, balance_settings_healed, balance_updated_frame by exact Hne.
    apply balance_healed.
  - rewrite Hf, registry_settings_healed, registry_updated.
    apply registry_healed.
Qed.

Lemma pointset_adjusts_balance_witness :
  let failing := mkAuditLog (fun _ => false) (fun _ => false) false in
  let s := mkState (mkFiles (Some [Ledger.mk "42" "5"; Ledger.mk "7" "1"])
                      (Some [Setting.mk "reason_channel" "9"]) (Table []))
             [] in
  let s' := snd (pointset failing 1 42 (-8) "spam" s) in
  fst (get_user_points 42 s') = Ret (-3)
  /\ fst (get_user_points 7 s') = Ret 1.
Proof.
  intros failing s s'.
  destruct (pointset_adjusts_balance failing 1 42 (-8) "spam" s 5 eq_refl)
    as (H1 & _ & H3 & _).
  split; [exact H1|]. exact (eq_trans (H3 7 ltac:(lia)) eq_refl).
Defined.

Lemma pointset_balance_after (log : AuditLog) (moderator user value : Z)
    (reason : string) (s : State) (c : Z) :
  balance user (files s) = Ret c ->
  balance user (files (snd (pointset log moderator user value reason s)))
  = Ret (c + value).
Proof.
  intros Hc. pose proof (pointset_spec log moderator user value reason s) as H.
  rewrite Hc in H. destruct H as [_ ->].
  destruct (balance_found _ _ _ Hc) as [x Hx].
  destruct (updated_rows_found user (c + value) _ _ Hx) as [rows' E].
  rewrite balance_settings_healed. exact (balance_updated _ _ _ _ E).
Qed.

(** X7: what [pointset] sends when the balance of [user] reads as [c]: with
    no reason channel stored, or an empty one, the confirmation alone; with a
    stored channel id that the platform fetches and sends to, the log line
    with the change and the new total, then the confirmation. *)
Theorem pointset_messages (log : AuditLog) (moderator user value : Z)
    (reason : string) (s : State) (c : Z) :
  fst (get_user_points user s) = Ret c ->
  let sent := fst (pointset log moderator user value reason s) in
  (fst (get_setting "reason_channel" s) = Ret None
   \/ fst (get_setting "reason_channel" s) = Ret (Some "") ->
   sent = Ret [PointsUpdated user c (c + value)])
  /\ (forall text channel,
        fst (get_setting "reason_channel" s) = Ret (Some text) ->
        py_int text = Some channel ->
        log_fetch_ok log channel = true ->
        log_send_ok log channel = true ->
        sent = Ret [PointAdjustment channel moderator user value (c + value)
                      reason;
                    PointsUpdated user c (c + value)]).
Proof.
  intros Hc sent. subst sent.
  destruct (get_user_points_spec user s) as [Hb _]. rewrite Hb in Hc.
  pose proof (pointset_spec log moderator user value reason s) as H.
  rewrite Hc in H. destruct H as [-> _].
  rewrite get_setting_spec. unfold logged_messages. split.
  - intros [[= ->]|[= ->]]; reflexivity.
  - intros text channel [= ->] Hi Hfetch Hsend.
    destruct text as [|a text]; [discriminate|].
    rewrite Hi, Hfetch, Hsend. reflexivity.
Qed.

Lemma pointset_messages_witness :
  let log := mkAuditLog (fun _ => true) (fun _ => true) true in
  let s := mkState (mkFiles (Some [Ledger.mk "42" "5"])
                      (Some [Setting.mk "reason_channel" "9"]) (Table []))
             [] in
  fst (pointset log 1 42 3 "helpful" s)
  = Ret [PointAdjustment 9 1 42 3 8 "helpful"; PointsUpdated 42 5 8].
Proof.
  intros log s.
  exact (proj2 (pointset_messages log 1 42 3 "helpful" s 5 eq_refl)
           "9" 9 eq_refl eq_refl eq_refl eq_refl).
Defined.

(** X8: when the stored reason channel is no integer, or the platform fails
    to fetch it or to send the log line, [pointset] has written the new
    balance all the same.  If the warning can be sent the invoker gets the
    warning and the confirmation; if it cannot, the invoker is told of an
    error adjusting the points although the adjustment is in the ledger. *)
Theorem pointset_logging_failure (log : AuditLog)
    (moderator user value : Z) (reason : string) (s : State) (c : Z)
    (text : string) :
  fst (get_user_points user s) = Ret c ->
  fst (get_setting "reason_channel" s) = Ret (Some text) ->
  text <> "" ->
  (py_int text = None
   \/ exists channel,
        py_int text = Some channel
        /\ log_fetch_ok log channel && log_send_ok log channel = false) ->
  let s' := snd (pointset log moderator user value reason s) in
  let sent := fst (pointset log moderator user value reason s) in
  fst (get_user_points user s') = Ret (c + value)
  /\ (followup_ok log = true ->
      exists e, sent = Ret [CouldNotLog e; PointsUpdated user c (c + value)])
  /\ (followup_ok log = false ->
      sent = Ret [ErrorAdjustingPoints HTTPException]).
Proof.
  intros Hc Hs Hne Hfail s' sent. subst s' sent.
  destruct (get_user_points_spec user s) as [Hb _]. rewrite Hb in Hc.
  split.
  - destruct (get_user_points_spec user
                (snd (pointset log moderator user value reason s))) as [-> _].
    now apply pointset_balance_after.
  - pose proof (pointset_spec log moderator user value reason s) as H.
    rewrite Hc in H. destruct H as [-> _].
    rewrite get_setting_spec in Hs. injection Hs as ->.
    unfold logged_messages. destruct text as [|a text]; [congruence|].
    destruct Hfail as [->|[channel [-> ->]]]; split; intros ->;
      try reflexivity; eexists; reflexivity.
Qed.

Lemma pointset_logging_failure_witness :
  let log := mkAuditLog (fun _ => false) (fun _ => true) false in
  let s := mkState (mkFiles (Some [Ledger.mk "42" "5"])
                      (Some [Setting.mk "reason_channel" "9"]) (Table []))
             [] in
  fst (get_user_points 42 (snd (pointset log 1 42 3 "helpful" s))) = Ret 8
  /\ fst (pointset log 1 42 3 "helpful" s)
     = Ret [ErrorAdjustingPoints HTTPException].
Proof.
  intros log s.
  destruct (pointset_logging_failure log 1 42 3 "helpful" s 5 "9" eq_refl
              eq_refl ltac:(discriminate)
              (or_intror (ex_intro _ 9 (conj eq_refl eq_refl))))
    as (H1 & _ & H3).
  split; [exact H1|exact (H3 eq_refl)].
Defined.

(** X9: when the balance of [user] cannot be read, [pointset] reports the
    failure and writes nothing. *)
Theorem pointset_unreadable_ledger (log : AuditLog)
    (moderator user value : Z) (reason : string) (s : State) (e : exn) :
  fst (get_user_points user s) = Raise e ->
  fst (pointset log moderator user value reason s)
  = Ret [ErrorAdjustingPoints e]
  /\ files (snd (pointset log moderator user value reason s)) = files s.
Proof.
  intros He. destruct (get_user_points_spec user s) as [Hb _].
  rewrite Hb in He.
  pose proof (pointset_spec log moderator user value reason s) as H.
  now rewrite He in H.
Qed.

Lemma pointset_unreadable_ledger_witness :
  let log := mkAuditLog (fun _ => true) (fun _ => true) true in
  let s := mkState (mkFiles (Some [Ledger.mk "someone" "5"; Ledger.mk "42" "5"])
                      (Some []) (Table [])) [] in
  fst (pointset log 1 42 3 "helpful" s) = Ret [ErrorAdjustingPoints ValueError]
  /\ files (snd (pointset log 1 42 3 "helpful" s)) = files s.
Proof.
  intros log s.
  exact (pointset_unreadable_ledger log 1 42 3 "helpful" s ValueError eq_refl).
Defined.

(** ** More on the sweeper *)

Section SweepMore.

Variable fromisoformat : string -> parsed_datetime.
Variable chat : Platform.

Lemma partition_rows_undecodable (now : Z) (rows : list Campaign.row) :
  Exists (undecodable fromisoformat now) rows ->
  forall expired_messages active_messages,
  exists e,
    partition_rows fromisoformat now (map Some rows) expired_messages
      active_messages = Raise e.
Proof.
  induction rows as [|row rest IH]; intros H ex act; [inversion H|].
  cbn [map partition_rows].
  assert (Hrest : undecodable fromisoformat now row \/
                  Exists (undecodable fromisoformat now) rest)
    by (inversion H; auto).
  unfold undecodable in Hrest at 1.
  destruct (fromisoformat (Campaign.expiration row)) as [t| |];
    [|eexists; reflexivity ..].
  destruct (t <=? now) eqn:Et.
  - destruct (py_int (Campaign.message_id row)) as [m|];
      [|eexists; reflexivity].
    destruct (py_int (Campaign.channel_id row)) as [c|];
      [|eexists; reflexivity].
    destruct Hrest as [[_ [Hm|Hc]]|Hr]; try discriminate. now apply IH.
  - destruct Hrest as [[Hle _]|Hr]; [|now apply IH].
    apply Z.leb_gt in Et. lia.
Qed.

Lemma check_expirations_fails (now : Z) (s : State)
    (rows : list (option Campaign.row)) (e : exn) :
  wpt_rows (wpt_messages_csv (files s)) = Ret rows ->
  partition_rows fromisoformat now rows [] [] = Raise e ->
  check_expirations fromisoformat chat now s
  = (Ret tt,
     mkState (files s)
       (trace s ++ [Open WPT_MESSAGES_FILE "r";
                    Print (ErrorCheckingExpirations e)])).
Proof.
  intros Hw Hp.
  unfold check_expirations, try_except. rewrite bind_unfold, read_wpt_spec.
  rewrite Hw, bind_unfold. unfold lift. rewrite Hp.
  unfold except_Exception, emit. cbn [files trace].
  now rewrite <- app_assoc.
Qed.

(** X10: a sweep that cannot read the registry does nothing but print the
    failure.  With the file absent it does not create it; with one row that
    cannot be decoded (an expiration that is no naive time, or an expired
    row with an id that is no integer) no message is deleted and no row is
    pruned, the well-formed expired rows included. *)
Theorem sweep_fails_as_a_whole (now : Z) (s : State) :
  (wpt_messages_csv (files s) = Absent ->
   check_expirations fromisoformat chat now s
   = (Ret tt,
      mkState (files s)
        (trace s ++ [Open WPT_MESSAGES_FILE "r";
                     Print (ErrorCheckingExpirations FileNotFoundError)])))
  /\ (forall rows,
        wpt_messages_csv (files s) = Table rows ->
        Exists (undecodable fromisoformat now) rows ->
        exists e,
          check_expirations fromisoformat chat now s
          = (Ret tt,
             mkState (files s)
               (trace s ++ [Open WPT_MESSAGES_FILE "r";
                            Print (ErrorCheckingExpirations e)]))).
Proof.
  split.
  - intros Hw. unfold check_expirations, try_except.
    rewrite bind_unfold, read_wpt_spec, Hw.
    unfold except_Exception, emit. cbn [wpt_rows files trace].
    now rewrite <- app_assoc.
  - intros rows Hw Hbad.
    destruct (partition_rows_undecodable now rows Hbad [] []) as [e He].
    exists e. apply (check_expirations_fails now s (map Some rows)); [|exact He].
    now rewrite Hw.
Qed.

Lemma filter_filter_implied {A : Type} (f g : A -> bool) (l : list A) :
  (forall x, g x = true -> f x = true) ->
  filter g (filter f l) = filter g l.
Proof.
  intros H. induction l as [|x l IH]; [reflexivity|]. cbn [filter].
  destruct (f x) eqn:Ef; cbn [filter].
  - now rewrite IH.
  - destruct (g x) eqn:Eg; [|exact IH]. apply H in Eg. congruence.
Qed.

Lemma still_active_mono (now1 now2 : Z) (row : Campaign.row) :
  now1 <= now2 ->
  still_active fromisoformat now2 row = true ->
  still_active fromisoformat now1 row = true.
Proof.
  unfold still_active, expired_at. intros Hle.
  destruct (fromisoformat (Campaign.expiration row)) as [t| |]; try reflexivity.
  rewrite !negb_true_iff, !Z.leb_gt. lia.
Qed.

Lemma filter_expired_of_active (now : Z) (rows : list Campaign.row) :
  filter (expired_at fromisoformat now)
    (filter (still_active fromisoformat now) rows) = [].
Proof.
  induction rows as [|row rest IH]; [reflexivity|]. cbn [filter].
  unfold still_active at 1.
  destruct (expired_at fromisoformat now row) eqn:E; cbn [negb filter];
    [exact IH|]. now rewrite E.
Qed.

Lemma Forall_filter {A : Type} (P : A -> Prop) (f : A -> bool) (l : list A) :
  Forall P l -> Forall P (filter f l).
Proof.
  induction 1 as [|x l Hx Hl IH]; [constructor|]. cbn [filter].
  destruct (f x); [constructor|]; assumption.
Qed.

(** X11: sweeps compose.  On a registry of well-formed records, a sweep at
    [now1] followed by a sweep at a later time [now2] leaves the registry
    that the sweep at [now2] alone leaves; a second sweep at the same time
    deletes no message and leaves the files as they are. *)
Theorem sweep_twice (now1 now2 : Z) (s : State) (rows : list Campaign.row) :
  wpt_messages_csv (files s) = Table rows ->
  Forall (well_formed fromisoformat) rows ->
  now1 <= now2 ->
  let s1 := snd (check_expirations fromisoformat chat now1 s) in
  let s2 := snd (check_expirations fromisoformat chat now2 s1) in
  registry (files s2)
  = registry (files (snd (check_expirations fromisoformat chat now2 s)))
  /\ (now1 = now2 ->
      files s2 = files s1
      /\ trace s2
         = (trace s1 ++ [Open WPT_MESSAGES_FILE "r";
                         Open WPT_MESSAGES_FILE "w"])%list).
Proof.
  intros Hw Hrows Hle s1 s2. subst s1 s2.
  rewrite (check_expirations_spec fromisoformat chat now1 s rows Hw Hrows).
  rewrite (check_expirations_spec fromisoformat chat now2 s rows Hw Hrows).
  cbn [snd].
  set (rows1 := filter (still_active fromisoformat now1) rows).
  match goal with
  | |- context [check_expirations fromisoformat chat now2 ?st] =>
      rewrite (check_expirations_spec fromisoformat chat now2 st rows1
                 eq_refl (Forall_filter _ _ _ Hrows))
  end.
  cbn [snd files trace points_csv settings_csv]. unfold registry.
  cbn [wpt_messages_csv]. split.
  - apply filter_filter_implied. intros row. now apply still_active_mono.
  - intros <-. unfold rows1. rewrite filter_expired_of_active.
    rewrite (filter_filter_implied _ _ rows (fun x H => H)).
    split; reflexivity.
Qed.

End SweepMore.

Lemma sweep_twice_witness :
  let old := Campaign.mk "1" "10" "2024-01-01T00:00:00" "👍:5" in
  let mid := Campaign.mk "3" "11" "2025-06-01T12:00:00" "👍:5" in
  let new := Campaign.mk "2" "10" "2030-01-01T00:00:00" "👍:5" in
  let chat := mkPlatform (fun _ _ => Some 77) (fun _ _ => true)
                (fun _ => true) (fun _ _ => true) (fun _ _ => true) in
  let s := mkState (mkFiles (Some []) (Some []) (Table [old; mid; new])) [] in
  let s1 := snd (check_expirations sample_fromisoformat chat
                   63839664000000000 s) in
  let s2 := snd (check_expirations sample_fromisoformat chat
                   63884376000000000 s1) in
  registry (files s1) = [mid; new] /\ registry (files s2) = [new].
Proof.
  intros old mid new chat s s1 s2.
  assert (Hwf : Forall (well_formed sample_fromisoformat) [old; mid; new]).
  { repeat constructor; cbn; eexists; reflexivity. }
  destruct (sweep_twice sample_fromisoformat chat 63839664000000000
              63884376000000000 s [old; mid; new] eq_refl Hwf ltac:(lia))
    as [H1 _].
  split; [reflexivity|]. exact (eq_trans H1 eq_refl).
Defined.

Lemma sweep_fails_as_a_whole_witness :
  let old := Campaign.mk "1" "10" "2024-01-01T00:00:00" "👍:5" in
  let bad := Campaign.mk "2" "10" "tomorrow" "👍:5" in
  let chat := mkPlatform (fun _ _ => Some 77) (fun _ _ => true)
                (fun _ => true) (fun _ _ => true) (fun _ _ => true) in
  let s := mkState (mkFiles (Some []) (Some []) (Table [old; bad])) [] in
  registry (files (snd (check_expirations sample_fromisoformat chat
                          63884376000000000 s)))
  = [old; bad].
Proof.
  intros old bad chat s.
  destruct (proj2 (sweep_fails_as_a_whole sample_fromisoformat chat
                     63884376000000000 s) [old; bad] eq_refl) as [e He].
  - right. left. exact I.
  - rewrite He. reflexivity.
Defined.

Lemma partition_rows_active_incl (fromisoformat : string -> parsed_datetime)
    (now : Z) (rows : list (option Campaign.row)) :
  forall ex act ex' act',
    partition_rows fromisoformat now rows ex act = Ret (ex', act') ->
    forall r, In r act' -> In r act \/ In (Some r) rows.
Proof.
  induction rows as [|[row|] rest IH]; intros ex act ex' act';
    cbn [partition_rows]; [|  |discriminate].
  - intros [= <- <-] r Hr. now left.
  - destruct (fromisoformat (Campaign.expiration row)) as [t| |];
      try discriminate.
    destruct (t <=? now).
    + destruct (py_int (Campaign.message_id row)); [|discriminate].
      destruct (py_int (Campaign.channel_id row)); [|discriminate].
      intros H r Hr. destruct (IH _ _ _ _ H r Hr) as [Ha|Hb];
        [now left|right; now right].
    + intros H r Hr. destruct (IH _ _ _ _ H r Hr) as [Ha|Hb].
      * apply in_app_or in Ha. destruct Ha as [Ha|[<-|[]]];
          [now left|right; now left].
      * right. now right.
Qed.

(** X12: in every state of the files, whatever the platform does, a sweep
    leaves the ledger and the settings as they are, and adds no row to the
    registry: every row there after the sweep was there before. *)
Theorem sweep_only_prunes (fromisoformat : string -> parsed_datetime)
    (chat : Platform) (now : Z) (s : State) :
  let s' := snd (check_expirations fromisoformat chat now s) in
  points_csv (files s') = points_csv (files s)
  /\ settings_csv (files s') = settings_csv (files s)
  /\ incl (registry (files s')) (registry (files s)).
Proof.
  intros s'. subst s'. rewrite check_expirations_files.
  destruct (wpt_rows (wpt_messages_csv (files s))) as [rows|e] eqn:Ew;
    [|repeat split; apply incl_refl].
  destruct (partition_rows fromisoformat now rows [] []) as [[ex act]|e]
    eqn:Ep; [|repeat split; apply incl_refl].
  cbn [points_csv settings_csv snd]. split; [reflexivity|].
  split; [reflexivity|]. intros r Hr. unfold registry in *.
  cbn [wpt_messages_csv] in Hr.
  destruct (partition_rows_active_incl _ _ _ _ _ _ _ Ep r Hr) as [[]|Hin].
  destruct (wpt_messages_csv (files s)) as [|table|first rest];
    cbn [wpt_rows] in Ew; [discriminate| |]; injection Ew as <-.
  - apply in_map_iff in Hin. destruct Hin as [x [[= ->] Hx]]. exact Hx.
  - apply in_map_iff in Hin. destruct Hin as [x [Hx _]]. discriminate.
Qed.

(** ** More on the reaction handlers *)

(** X13: for a user that is no bot, on a message of the registry whose
    schedule decodes and gives the emoji of the event the integer [p], with
    the balance of the user reading as [c]: the reaction-added handler
    leaves the balance at [c + p], the reaction-removed handler at [c - p],
    below zero when [p] exceeds [c]. *)
Theorem reaction_moves_balance_by_schedule (s : State) (ev : Reaction.event)
    (rows : list Campaign.row) (row : Campaign.row) (d : dict string)
    (text : string) (p c : Z) :
  Reaction.user_bot ev = false ->
  wpt_messages_csv (files s) = Table rows ->
  find_message (Reaction.message_id ev) (map Some rows) = Ret (Some row) ->
  dict_of_pairs (map (split ":") (split "," (Campaign.emoji_points row))) []
  = Ret d ->
  dict_get (Reaction.emoji ev) d = Some text ->
  py_int text = Some p ->
  fst (get_user_points (Reaction.user_id ev) s) = Ret c ->
  fst (get_user_points (Reaction.user_id ev) (snd (on_reaction_add ev s)))
  = Ret (c + p)
  /\ fst (get_user_points (Reaction.user_id ev)
            (snd (on_reaction_remove ev s)))
     = Ret (c - p).
Proof.
  intros Hbot Hw Hfind Hd Hg Hi Hc.
  destruct (get_user_points_spec (Reaction.user_id ev) s) as [Hb _].
  rewrite Hb in Hc.
  assert (Hp : reaction_points ev (wpt_messages_csv (files s)) = Ret (Some p)).
  { unfold reaction_points, points_of. rewrite Hw. cbn [wpt_rows].
    now rewrite Hfind, Hd, Hg, Hi. }
  rewrite on_reaction_add_shape, on_reaction_remove_shape. split.
  - destruct (get_user_points_spec (Reaction.user_id ev)
                (snd (adjust_on_reaction Z.add ErrorProcessingReaction ev s)))
      as [-> _].
    rewrite adjust_on_reaction_files by exact Hbot.
    exact (adjusted_balance Z.add ev _ p c Hp Hc).
  - destruct (get_user_points_spec (Reaction.user_id ev)
                (snd (adjust_on_reaction Z.sub ErrorProcessingRemoval ev s)))
      as [-> _].
    rewrite adjust_on_reaction_files by exact Hbot.
    exact (adjusted_balance Z.sub ev _ p c Hp Hc).
Qed.

Lemma reaction_moves_balance_by_schedule_witness :
  let row := Campaign.mk "77" "5" "2030-01-01T00:00:00" "👍:5,❤️:10" in
  let s := mkState (mkFiles (Some [Ledger.mk "42" "3"]) (Some [])
                      (Table [row])) [] in
  let ev := Reaction.mk 77 "❤️" 42 false in
  fst (get_user_points 42 (snd (on_reaction_add ev s))) = Ret 13
  /\ fst (get_user_points 42 (snd (on_reaction_remove ev s))) = Ret (-7).
Proof.
  intros row s ev.
  exact (reaction_moves_balance_by_schedule s ev [row] row
           [("👍", "5"); ("❤️", "10")] "10" 10 3
           eq_refl eq_refl eq_refl eq_refl eq_refl eq_refl eq_refl).
Defined.

(** X14: events the handlers pass over.  For a bot nothing happens at all;
    for any other user, when the message is not in the registry or the
    emoji is not a key of its schedule, the handler reads the registry and
    does nothing else: no file changes and nothing is printed. *)
Theorem reaction_passed_over (s : State) (ev : Reaction.event) :
  (Reaction.user_bot ev = true ->
   on_reaction_add ev s = (Ret tt, s) /\ on_reaction_remove ev s = (Ret tt, s))
  /\ (forall rows,
        Reaction.user_bot ev = false ->
        wpt_messages_csv (files s) = Table rows ->
        (find_message (Reaction.message_id ev) (map Some rows) = Ret None
         \/ exists row d,
              find_message (Reaction.message_id ev) (map Some rows)
              = Ret (Some row)
              /\ dict_of_pairs
                   (map (split ":") (split "," (Campaign.emoji_points row))) []
                 = Ret d
              /\ dict_get (Reaction.emoji ev) d = None) ->
        on_reaction_add ev s
        = (Ret tt,
           mkState (files s) (trace s ++ [Open WPT_MESSAGES_FILE "r"]))
        /\ on_reaction_remove ev s
           = (Ret tt,
              mkState (files s) (trace s ++ [Open WPT_MESSAGES_FILE "r"]))).
Proof.
  split.
  - intros Hbot. unfold on_reaction_add, on_reaction_remove. rewrite Hbot.
    split; reflexivity.
  - intros rows Hbot Hw Hcase.
    assert (Hp : reaction_points ev (wpt_messages_csv (files s)) = Ret None).
    { unfold reaction_points, points_of. rewrite Hw. cbn [wpt_rows].
      destruct Hcase as [->|[row [d [-> [-> ->]]]]]; reflexivity. }
    rewrite on_reaction_add_shape, on_reaction_remove_shape. split.
    + pose proof (adjust_on_reaction_stops Z.add ErrorProcessingReaction ev s
                    Hbot) as H. now rewrite Hp in H.
    + pose proof (adjust_on_reaction_stops Z.sub ErrorProcessingRemoval ev s
                    Hbot) as H. now rewrite Hp in H.
Qed.

Lemma reaction_passed_over_witness :
  let row := Campaign.mk "77" "5" "2030-01-01T00:00:00" "👍:5" in
  let s := mkState (mkFiles (Some [Ledger.mk "42" "3"]) (Some [])
                      (Table [row])) [] in
  files (snd (on_reaction_add (Reaction.mk 78 "👍" 42 false) s)) = files s
  /\ files (snd (on_reaction_add (Reaction.mk 77 "🎉" 42 false) s)) = files s
  /\ on_reaction_add (Reaction.mk 77 "👍" 42 true) s = (Ret tt, s).
Proof.
  intros row s.
  destruct (reaction_passed_over s (Reaction.mk 78 "👍" 42 false)) as [_ H1].
  destruct (reaction_passed_over s (Reaction.mk 77 "🎉" 42 false)) as [_ H2].
  destruct (reaction_passed_over s (Reaction.mk 77 "👍" 42 true)) as [H3 _].
  destruct (H1 [row] eq_refl eq_refl (or_introl eq_refl)) as [-> _].
  destruct (H2 [row] eq_refl eq_refl) as [-> _].
  { right. exists row, [("👍", "5")]. repeat split. }
  destruct (H3 eq_refl) as [-> _]. repeat split.
Defined.

Lemma adjusted_frame (combine : Z -> Z -> Z) (ev : Reaction.event)
    (fs : Files) (other : Z) :
  other <> Reaction.user_id ev ->
  balance other (adjusted combine ev fs) = balance other fs
  /\ wpt_messages_csv (adjusted combine ev fs) = wpt_messages_csv fs
  /\ settings_rows (adjusted combine ev fs) = settings_rows fs.
Proof.
  intros Hne. unfold adjusted.
  destruct (reaction_points ev (wpt_messages_csv fs)) as [[p|]|e] eqn:Ep;
    try (repeat split; reflexivity).
  destruct (balance (Reaction.user_id ev) fs) as [c|e];
    [|repeat split; reflexivity].
  pose proof (reaction_points_present _ _ _ Ep) as Hw.
  split; [|split].
  - rewrite balance_updated_frame by exact Hne. apply balance_healed.
  - rewrite wpt_updated; rewrite wpt_healed; congruence.
  - unfold updated.
    destruct (updated_rows _ _ _); cbn [settings_csv];
      destruct fs as [pc st w]; unfold settings_rows, healed; cbn;
      destruct pc; cbn; try reflexivity; destruct st; reflexivity.
Qed.

(** X15: in every state of the files, a reaction handler changes at most the
    ledger entry of the reacting user: the balance of every other user, the
    registry file and the rows of the settings are as before. *)
Theorem reaction_touches_one_balance (s : State) (ev : Reaction.event)
    (other : Z) :
  other <> Reaction.user_id ev ->
  let after_add := snd (on_reaction_add ev s) in
  let after_remove := snd (on_reaction_remove ev s) in
  (fst (get_user_points other after_add) = fst (get_user_points other s)
   /\ wpt_messages_csv (files after_add) = wpt_messages_csv (files s)
   /\ settings_rows (files after_add) = settings_rows (files s))
  /\ (fst (get_user_points other after_remove) = fst (get_user_points other s)
      /\ wpt_messages_csv (files after_remove) = wpt_messages_csv (files s)
      /\ settings_rows (files after_remove) = settings_rows (files s)).
Proof.
  intros Hne after_add after_remove. subst after_add after_remove.
  rewrite !get_user_points_result.
  destruct (Reaction.user_bot ev) eqn:Hbot.
  - unfold on_reaction_add, on_reaction_remove. rewrite Hbot.
    repeat split; reflexivity.
  - rewrite on_reaction_add_shape, on_reaction_remove_shape.
    rewrite !adjust_on_reaction_files by exact Hbot.
    split; apply adjusted_frame; exact Hne.
Qed.

Lemma reaction_touches_one_balance_witness :
  let row := Campaign.mk "77" "5" "2030-01-01T00:00:00" "👍:5" in
  let s := mkState (mkFiles (Some [Ledger.mk "42" "3"; Ledger.mk "7" "1"])
                      (Some []) (Table [row])) [] in
  let ev := Reaction.mk 77 "👍" 42 false in
  fst (get_user_points 42 (snd (on_reaction_add ev s))) = Ret 8
  /\ fst (get_user_points 7 (snd (on_reaction_add ev s))) = Ret 1.
Proof.
  intros row s ev. split; [reflexivity|].
  destruct (reaction_touches_one_balance s ev 7 ltac:(discriminate))
    as [[H _] _].
  exact (eq_trans H eq_refl).
Defined.

(** ** More on campaign creation *)



Section CreationMore.

Variable isoformat : Z -> string.
Variable timestamp : Z -> outcome Z.
Variable chat : Platform.



End CreationMore.
















(** ** More on the ledger *)

Lemma set_points_raise_row (u : Z) (v : string) (rows : list Ledger.row)
    (e : exn) :
  set_points u v rows = Raise e ->
  exists row, In row rows /\ py_int (Ledger.user_id row) = None.
Proof.
  induction rows as [|row rest IH]; cbn [set_points]; [discriminate|].
  destruct (py_int (Ledger.user_id row)) as [k|] eqn:Ek.
  - destruct (k =? u); [discriminate|].
    destruct (set_points u v rest) as [[rest' b]|e']; [discriminate|].
    intros H. destruct (IH H) as [r [Hin Hr]]. exists r. split; auto.
    now right.
  - intros _. exists row. split; [now left|exact Ek].
Qed.

(** X21: [update_user_points] writes all or nothing.  It returns normally
    whenever every [user_id] of the ledger is an integer, the absent file
    included; otherwise it either returns normally or raises [ValueError]
    with the three files exactly as they were, and then some row of the
    ledger has a [user_id] that is no integer.  It never fails in another
    way. *)
Theorem update_user_points_all_or_nothing (s : State) (u n : Z) :
  (ledger_ok (files s) -> fst (update_user_points u n s) = Ret tt)
  /\ (fst (update_user_points u n s) = Ret tt
      \/ (fst (update_user_points u n s) = Raise ValueError
          /\ files (snd (update_user_points u n s)) = files s
          /\ exists row, In row (ledger_rows (files s))
                         /\ py_int (Ledger.user_id row) = None)).
Proof.
  destruct (update_user_points_spec u n s) as [Hf Hr]. split.
  - intros Hok. destruct (updated_rows_ok u n _ Hok) as [rows' [E _]].
    now rewrite Hr, E.
  - rewrite Hr, Hf. unfold updated, updated_rows.
    destruct (set_points u (py_str n) (ledger_rows (files s)))
      as [[rows' b]|e] eqn:E.
    + left. destruct b; reflexivity.
    + right. rewrite (set_points_raise _ _ _ _ E).
      split; [reflexivity|]. split; [reflexivity|].
      exact (set_points_raise_row _ _ _ _ E).
Qed.

Lemma update_user_points_all_or_nothing_witness :
  let good := mkState (mkFiles None (Some []) (Table [])) [] in
  let bad := mkState (mkFiles (Some [Ledger.mk "7" "1"; Ledger.mk "x" "2";
                                     Ledger.mk "42" "3"])
                        (Some []) (Table [])) [] in
  fst (update_user_points 42 5 good) = Ret tt
  /\ fst (update_user_points 42 5 bad) = Raise ValueError
  /\ files (snd (update_user_points 42 5 bad)) = files bad.
Proof.
  intros good bad.
  destruct (update_user_points_all_or_nothing good 42 5) as [H1 _].
  destruct (update_user_points_all_or_nothing bad 42 5) as [_ [H2|H2]].
  - discriminate H2.
  - split; [apply H1; constructor|]. destruct H2 as (Ha & Hb & _).
    split; [exact Ha|exact Hb].
Defined.

Lemma set_points_again (u : Z) (v : string) (rows rows' : list Ledger.row)
    (b : bool) :
  set_points u v rows = Ret (rows', b) ->
  set_points u v
    (if b then rows' else (rows' ++ [Ledger.mk (py_str u) v])%list)
  = Ret (if b then rows' else (rows' ++ [Ledger.mk (py_str u) v])%list, true).
Proof.
  revert rows' b.
  induction rows as [|row rest IH]; intros rows' b; cbn [set_points].
  - intros [= <- <-]. cbn. now rewrite py_int_py_str, Z.eqb_refl.
  - destruct (py_int (Ledger.user_id row)) as [k|] eqn:Ek; [|discriminate].
    destruct (k =? u) eqn:E.
    + intros [= <- <-]. cbn. now rewrite Ek, E.
    + destruct (set_points u v rest) as [[rest' b']|e]; [|discriminate].
      intros [= <- <-]. specialize (IH _ _ eq_refl).
      destruct b'; cbn [app set_points]; rewrite Ek, E, IH; reflexivity.
Qed.

Lemma updated_again (u n : Z) (fs : Files) :
  updated u n (updated u n fs) = updated u n fs.
Proof.
  unfold updated at 2.
  destruct (updated_rows u n (ledger_rows fs)) as [rows'|e] eqn:E.
  - assert (E' : updated_rows u n rows' = Ret rows').
    { unfold updated_rows in *.
      destruct (set_points u (py_str n) (ledger_rows fs)) as [[r b]|e'] eqn:Es;
        [|discriminate].
      pose proof (set_points_again _ _ _ _ _ Es) as H.
      destruct b; injection E as <-; now rewrite H. }
    set (fs1 := mkFiles (Some rows') (settings_csv (healed fs))
                  (wpt_messages_csv (healed fs))).
    unfold updated. change (ledger_rows fs1) with rows'. rewrite E', E.
    reflexivity.
  - unfold updated. now rewrite E.
Qed.

(** X22: [update_user_points] is idempotent: in every state of the files a
    second call with the same user and the same points leaves the three
    files as the first call left them. *)
Theorem update_user_points_twice (s : State) (u n : Z) :
  let s1 := snd (update_user_points u n s) in
  files (snd (update_user_points u n s1)) = files s1.
Proof.
  intros s1. subst s1.
  destruct (update_user_points_spec u n (snd (update_user_points u n s)))
    as [-> _].
  destruct (update_user_points_spec u n s) as [-> _].
  apply updated_again.
Qed.

Lemma update_user_points_rec_absent (d : nat) (u n : Z) (s : State) :
  points_csv (files s) = None ->
  update_user_points_rec (S d) u n s
  = (Ret tt,
     mkState
       (mkFiles (Some [Ledger.mk (py_str u) (py_str n)])
          (settings_csv (ensured (files s)))
          (wpt_messages_csv (ensured (files s))))
       (trace s ++ Open POINTS_FILE "r" :: created (files s)
        ++ [Open POINTS_FILE "r"; Open POINTS_FILE "w"])).
Proof.
  destruct s as [[p st w] t]. cbn [files points_csv settings_csv trace].
  intros ->. unfold created. cbn [points_csv settings_csv wpt_messages_csv].
  destruct d; cbn [update_user_points_rec];
    unfold try_except, bind, read_points, write_points, ensure_csv_files,
      write_settings, write_wpt, emit, get_files, put_files, lift, raise, ret,
      except_FileNotFoundError;
    destruct st, w; cbn; rewrite <- ?app_assoc; reflexivity.
Qed.

Lemma set_setting_rec_absent (d : nat) (key value : string) (s : State) :
  settings_csv (files s) = None ->
  set_setting_rec (S d) key value s
  = (Ret tt,
     mkState
       (mkFiles (points_csv (ensured (files s)))
          (Some [Setting.mk key value])
          (wpt_messages_csv (ensured (files s))))
       (trace s ++ Open SETTINGS_FILE "r" :: created (files s)
        ++ [Open SETTINGS_FILE "r"; Open SETTINGS_FILE "w"])).
Proof.
  destruct s as [[p st w] t]. cbn [files points_csv settings_csv trace].
  intros ->. unfold created. cbn [points_csv settings_csv wpt_messages_csv].
  destruct d; cbn [set_setting_rec];
    unfold try_except, bind, read_settings, write_points, ensure_csv_files,
      write_settings, write_wpt, emit, get_files, put_files, lift, raise, ret,
      except_FileNotFoundError;
    destruct p, w; cbn; rewrite <- ?app_assoc; reflexivity.
Qed.

(** X23: when the file is absent, the two writers create the missing files
    and call themselves again once: [update_user_points] and [set_setting]
    open their file for reading, create what is missing, open the file for
    reading again and write it, and return normally with the one row in the
    file. *)
Theorem writers_retry_once (s : State) (u n : Z) (key value : string) :
  (points_csv (files s) = None ->
   update_user_points u n s
   = (Ret tt,
      mkState
        (mkFiles (Some [Ledger.mk (py_str u) (py_str n)])
           (settings_csv (ensured (files s)))
           (wpt_messages_csv (ensured (files s))))
        (trace s ++ Open POINTS_FILE "r" :: created (files s)
         ++ [Open POINTS_FILE "r"; Open POINTS_FILE "w"])))
  /\ (settings_csv (files s) = None ->
      set_setting key value s
      = (Ret tt,
         mkState
           (mkFiles (points_csv (ensured (files s)))
              (Some [Setting.mk key value])
              (wpt_messages_csv (ensured (files s))))
           (trace s ++ Open SETTINGS_FILE "r" :: created (files s)
            ++ [Open SETTINGS_FILE "r"; Open SETTINGS_FILE "w"]))).
Proof.
  split.
  - apply (update_user_points_rec_absent 999).
  - apply (set_setting_rec_absent 999).
Qed.

Lemma writers_retry_once_witness :
  let s := mkState (mkFiles None None (Table [])) [] in
  update_user_points 42 5 s
  = (Ret tt,
     mkState (mkFiles (Some [Ledger.mk "42" "5"]) (Some []) (Table []))
       [Open POINTS_FILE "r"; Open POINTS_FILE "w"; Open SETTINGS_FILE "w";
        Open POINTS_FILE "r"; Open POINTS_FILE "w"]).
Proof.
  intros s. exact (proj1 (writers_retry_once s 42 5 "" "") eq_refl).
Defined.

(** ** Reading, and the gate of the commands *)

Lemma same_data_healed (fs : Files) : same_data (healed fs) fs.
Proof.
  destruct fs as [p st w]. unfold same_data, healed, ledger_rows,
    settings_rows, registry. cbn.
  destruct p; cbn; [repeat split|]. destruct st, w; repeat split.
Qed.

Lemma same_data_settings_healed (fs : Files) :
  same_data (settings_healed fs) fs.
Proof.
  destruct fs as [p st w]. unfold same_data, settings_healed, ledger_rows,
    settings_rows, registry. cbn.
  destruct st; cbn; [repeat split|]. destruct p, w; repeat split.
Qed.

Lemma points_files (u : Z) (s : State) :
  files (snd (points u s)) = healed (files s).
Proof.
  unfold points, try_except. rewrite bind_unfold.
  destruct (get_user_points_spec u s) as [_ Hf].
  destruct (get_user_points u s) as [[c|e] s1]; exact Hf.
Qed.

Lemma predicate_state (interaction : Interaction) (s : State) :
  snd (predicate interaction s) = snd (get_setting "required_role" s).
Proof.
  unfold predicate. rewrite bind_unfold.
  pose proof (get_setting_spec "required_role" s) as H.
  destruct (get_setting "required_role" s) as [[o|e] s1]; cbn [fst] in H;
    [|discriminate].
  destruct o as [[|c text]|]; try reflexivity.
  unfold try_except.
  destruct (py_int (String c text)); [|reflexivity].
  destruct (roles interaction); reflexivity.
Qed.

(** X24: reading changes no data.  In every state of the files,
    [get_user_points], [points], [get_setting] and the role check leave
    the rows of the ledger, of the settings and of the registry as they
    are; when the file they read exists, they leave the three files
    exactly as they are. *)
Theorem readers_change_no_data (s : State) (u : Z) (key : string)
    (interaction : Interaction) :
  (same_data (files (snd (get_user_points u s))) (files s)
   /\ same_data (files (snd (points u s))) (files s)
   /\ same_data (files (snd (get_setting key s))) (files s)
   /\ same_data (files (snd (predicate interaction s))) (files s))
  /\ (points_csv (files s) <> None ->
      files (snd (get_user_points u s)) = files s
      /\ files (snd (points u s)) = files s)
  /\ (settings_csv (files s) <> None ->
      files (snd (get_setting key s)) = files s
      /\ files (snd (predicate interaction s)) = files s).
Proof.
  destruct (get_user_points_spec u s) as [_ Hg].
  pose proof (points_files u s) as Hp.
  destruct (get_setting_full key s) as [_ Hs].
  pose proof (predicate_state interaction s) as Hq.
  destruct (get_setting_full "required_role" s) as [_ Hr].
  rewrite Hq, Hg, Hp, Hs, Hr. split; [|split].
  - repeat split; try apply same_data_healed;
      apply same_data_settings_healed.
  - intros H. unfold healed. destruct (points_csv (files s)); [|congruence].
    now split.
  - intros H. unfold settings_healed.
    destruct (settings_csv (files s)); [|congruence]. now split.
Qed.

Lemma readers_change_no_data_witness :
  let s := mkState (mkFiles (Some [Ledger.mk "42" "3"])
                      (Some [Setting.mk "required_role" "7"]) Absent) [] in
  files (snd (points 42 s)) = files s
  /\ files (snd (predicate (mkInteraction (Some [7])) s)) = files s.
Proof.
  intros s.
  destruct (readers_change_no_data s 42 "" (mkInteraction (Some [7])))
    as (_ & H1 & H2).
  split; [apply H1|apply H2]; discriminate.
Defined.

Lemma existsb_eqb_In (r : Z) (l : list Z) :
  existsb (fun role => role =? r) l = true <-> In r l.
Proof.
  rewrite existsb_exists. split.
  - intros [x [Hin Hx]]. apply Z.eqb_eq in Hx. now subst.
  - intros Hin. exists r. split; [exact Hin|apply Z.eqb_refl].
Qed.

Lemma get_setting_present (key : string) (s : State) (value : string) :
  fst (get_setting key s) = Ret (Some value) ->
  get_setting key s
  = (Ret (Some value),
     mkState (files s) (trace s ++ [Open SETTINGS_FILE "r"])).
Proof.
  destruct s as [[p st w] t]. destruct st as [rows|].
  - unfold get_setting, try_except, bind, read_settings, emit, get_files, ret.
    cbn. now intros [= ->].
  - destruct p, w; cbn; discriminate.
Qed.

(** X25: the gate of [createwpt] and [pointset].  With an integer role id
    stored as required role, a command under the check runs exactly for
    the invokers that have the role, in the state the check leaves (the
    files untouched, the settings read once); for an invoker who has not
    the role, or no roles at all, the command does not run: no file
    changes and nothing is sent. *)
Theorem required_role_gates_commands (s : State) (interaction : Interaction)
    (A : Type) (command : M A) (text : string) (required : Z) :
  fst (get_setting "required_role" s) = Ret (Some text) ->
  py_int text = Some required ->
  let checked := mkState (files s) (trace s ++ [Open SETTINGS_FILE "r"]) in
  (forall user_roles,
     roles interaction = Some user_roles -> In required user_roles ->
     has_required_role interaction command s
     = (a <- command ;; ret (Some a)) checked)
  /\ (roles interaction = None
      \/ (exists user_roles,
            roles interaction = Some user_roles
            /\ ~ In required user_roles) ->
      has_required_role interaction command s = (Ret None, checked)).
Proof.
  intros Hget Hint checked.
  pose proof (predicate_state interaction s) as Hst.
  rewrite (get_setting_present _ _ _ Hget) in Hst. cbn [snd] in Hst.
  fold checked in Hst.
  pose proof (predicate_spec interaction s) as Hp.
  rewrite get_setting_spec in Hget. injection Hget as Hget.
  rewrite Hget in Hp.
  assert (Hne : text <> "") by (intros ->; discriminate).
  destruct text as [|c text]; [congruence|]. rewrite Hint in Hp.
  split.
  - intros user_roles Hr Hin. rewrite Hr in Hp.
    rewrite (proj2 (existsb_eqb_In required user_roles) Hin) in Hp.
    rewrite (has_required_role_spec _ _ _ _ Hp), Hst. reflexivity.
  - intros [Hr|[user_roles [Hr Hnin]]]; rewrite Hr in Hp.
    + rewrite (has_required_role_spec _ _ _ _ Hp), Hst. reflexivity.
    + destruct (existsb (fun role => role =? required) user_roles) eqn:E.
      * apply existsb_eqb_In in E. contradiction.
      * rewrite (has_required_role_spec _ _ _ _ Hp), Hst. reflexivity.
Qed.

Lemma required_role_gates_commands_witness :
  let s := mkState (mkFiles (Some [Ledger.mk "42" "3"])
                      (Some [Setting.mk "required_role" "7"]) (Table [])) [] in
  let log := mkAuditLog (fun _ => true) (fun _ => true) true in
  let member := mkInteraction (Some [3; 7]) in
  let stranger := mkInteraction (Some [3]) in
  fst (has_required_role member (pointset log 1 42 5 "helpful") s)
  = Ret (Some [PointsUpdated 42 3 8])
  /\ has_required_role stranger (pointset log 1 42 5 "helpful") s
     = (Ret None, mkState (files s) [Open SETTINGS_FILE "r"]).
Proof.
  intros s log member stranger.
  destruct (required_role_gates_commands s member _
              (pointset log 1 42 5 "helpful") "7" 7 eq_refl eq_refl)
    as [H1 _].
  destruct (required_role_gates_commands s stranger _
              (pointset log 1 42 5 "helpful") "7" 7 eq_refl eq_refl)
    as [_ H2].
  split.
  - rewrite (H1 [3; 7] eq_refl ltac:(right; left; reflexivity)). reflexivity.
  - apply H2. right. exists [3]. split; [reflexivity|].
    intros [H|[]]. discriminate.
Defined.

(** ** The reason channel *)

Lemma balance_with_setting (u : Z) (key value : string) (fs : Files) :
  balance u (with_setting key value fs) = balance u fs.
Proof.
  destruct fs as [p st w]. unfold balance, with_setting. cbn.
  destruct st; cbn; [reflexivity|]. destruct p; reflexivity.
Qed.

(** X26: [setreasonchannel(channel)] succeeds in every state of the files,
    and a [pointset] after it, for a user whose balance reads [c], sends the
    log line to that channel when the platform fetches the channel and
    accepts the line, and then the confirmation. *)
Theorem setreasonchannel_then_pointset (log : AuditLog)
    (channel moderator user value : Z) (reason : string) (s : State)
    (c : Z) :
  fst (get_user_points user s) = Ret c ->
  log_fetch_ok log channel = true ->
  log_send_ok log channel = true ->
  let s' := snd (setreasonchannel channel s) in
  fst (setreasonchannel channel s) = Ret (ReasonChannelSet channel)
  /\ fst (pointset log moderator user value reason s')
     = Ret [PointAdjustment channel moderator user value (c + value) reason;
            PointsUpdated user c (c + value)].
Proof.
  intros Hc Hfetch Hsend s'. subst s'.
  rewrite get_user_points_result in Hc.
  unfold setreasonchannel, try_except. rewrite bind_unfold.
  destruct (set_setting_spec "reason_channel" (py_str channel) s) as [Hr Hf].
  destruct (set_setting "reason_channel" (py_str channel) s) as [[[]|e] s1];
    cbn [fst snd] in *; [|discriminate].
  unfold ret. cbn [fst snd]. split; [reflexivity|].
  pose proof (pointset_spec log moderator user value reason s1) as H.
  rewrite Hf, balance_with_setting, Hc in H. destruct H as [-> _].
  rewrite stored_with_setting, String.eqb_refl. unfold logged_messages.
  pose proof (py_str_not_empty channel) as Hne.
  destruct (py_str channel) as [|a text] eqn:E; [congruence|].
  rewrite <- E, py_int_py_str, Hfetch, Hsend. reflexivity.
Qed.

Lemma setreasonchannel_then_pointset_witness :
  let log := mkAuditLog (fun _ => true) (fun _ => true) true in
  let s := mkState (mkFiles (Some [Ledger.mk "42" "5"]) None (Table [])) [] in
  fst (pointset log 1 42 3 "helpful" (snd (setreasonchannel 9 s)))
  = Ret [PointAdjustment 9 1 42 3 8 "helpful"; PointsUpdated 42 5 8].
Proof.
  intros log s.
  exact (proj2 (setreasonchannel_then_pointset log 9 1 42 3 "helpful" s 5
                  eq_refl eq_refl eq_refl)).
Defined.
